(** * DaoDebateGuardFHE: batch aggregation and asynchronous decryption

    A shallow embedding of [contracts/DAO_Debate_Guard.sol] and the
    properties of its access gates, batch lifecycle, cooldown and
    decryption callback.

    Conventions.
    - [uint256], [address], [bytes32] and the ciphertext handles
      ([euint32], a [bytes32] in the FHE library) are [N]; Solidity 0.8
      arithmetic is checked, so an addition that leaves the 256-bit range
      reverts with [Panic 0x11] instead of wrapping.
    - A [mapping] is a [gmap] read with the Solidity zero default.
    - A contract function is a computation in the monad [M]: it reads and
      writes the storage, appends to the event log, or reverts.  A revert
      discards every write and every event of the call ([transact]).
    - The FHE library, [keccak256] and the oracle are collaborators of the
      contract: they are the fields of [Primitives], and the request
      identifier the oracle hands out is part of the call environment. *)

From Stdlib Require Import NArith List Lia Bool.
From Stdlib Require Import Init.Byte.
From stdpp Require Import gmap.
Import ListNotations.

Local Open Scope N_scope.

(** ** Value types *)

Abbreviation uint256 := N (only parsing).
Abbreviation address := N (only parsing).
Abbreviation bytes32 := N (only parsing).
Abbreviation euint32 := N (only parsing).
Abbreviation bytes := (list byte) (only parsing).

Definition UINT256_MAX : N := 2 ^ 256 - 1.

(** ** Errors and events

    The contract declares an error and an event called [Paused], and an
    error and an event called [BatchClosed]; the two name spaces keep them
    apart. *)

Module Err.
Inductive t : Type :=
| NotOwner
| NotProvider
| Paused
| CooldownActive
| BatchNotOpen
| BatchClosed
| InvalidBatchId
| ReplayDetected
| StateMismatch
| InvalidProof
| NotInitialized
| InvalidParameter
(* raised by requestBatchDecryption; absent from the error declarations *)
| BatchNotClosed
(* compiler-inserted checks: 0x11 arithmetic overflow, 0x32 out of bounds *)
| Panic (code : N).
End Err.

Module Evt.
Inductive t : Type :=
| OwnershipTransferred (oldOwner newOwner : address)
| ProviderAdded (provider : address)
| ProviderRemoved (provider : address)
| Paused (account : address)
| Unpaused (account : address)
| CooldownSecondsChanged (oldCooldown newCooldown : uint256)
| BatchOpened (batchId : uint256)
| BatchClosed (batchId : uint256)
| Submission (batchId : uint256) (provider : address)
| DecryptionRequested (requestId batchId : uint256)
| DecryptionCompleted (requestId batchId : uint256)
    (sentimentScore keywordCount pollOption1Count pollOption2Count : uint256).
End Evt.

(** ** Storage *)

Record DecryptionContext : Type := mkContext {
  batchId : uint256;
  stateHash : bytes32;
  processed : bool
}.

Record State : Type := mkState {
  owner : address;
  providers : gmap N bool;
  paused : bool;
  cooldownSeconds : uint256;
  lastSubmissionTime : gmap N N;
  lastDecryptionRequestTime : gmap N N;
  currentBatchId : uint256;
  batchOpen : bool;
  decryptionContexts : gmap N DecryptionContext;
  encryptedSentimentScores : gmap N N;
  encryptedKeywordCounts : gmap N N;
  encryptedPollOption1Counts : gmap N N;
  encryptedPollOption2Counts : gmap N N;
  accSentimentScore : euint32;
  accKeywordCount : euint32;
  accPollOption1Count : euint32;
  accPollOption2Count : euint32;
  submissionsInCurrentBatch : uint256;
  (* the flag behind FHE.isInitialized() *)
  FHE_initialized : bool
}.

(** Reads of a mapping give the zero value of the value type on a key that
    was never written. *)

Definition zeroContext : DecryptionContext :=
  {| batchId := 0; stateHash := 0; processed := false |}.

Definition readBool (m : gmap N bool) (k : N) : bool := default false (m !! k).
Definition readUint (m : gmap N N) (k : N) : N := default 0 (m !! k).
Definition readContext (m : gmap N DecryptionContext) (k : N) : DecryptionContext :=
  default zeroContext (m !! k).

(** Storage as the constructor finds it. *)
Definition emptyStorage : State :=
  {| owner := 0; providers := ∅; paused := false; cooldownSeconds := 0;
     lastSubmissionTime := ∅; lastDecryptionRequestTime := ∅;
     currentBatchId := 0; batchOpen := false; decryptionContexts := ∅;
     encryptedSentimentScores := ∅; encryptedKeywordCounts := ∅;
     encryptedPollOption1Counts := ∅; encryptedPollOption2Counts := ∅;
     accSentimentScore := 0; accKeywordCount := 0;
     accPollOption1Count := 0; accPollOption2Count := 0;
     submissionsInCurrentBatch := 0; FHE_initialized := false |}.

(** Single-field writes. *)

Definition set_owner (v : address) (s : State) : State :=
  mkState v (providers s) (paused s) (cooldownSeconds s) (lastSubmissionTime s)
    (lastDecryptionRequestTime s) (currentBatchId s) (batchOpen s) (decryptionContexts s)
    (encryptedSentimentScores s) (encryptedKeywordCounts s)
    (encryptedPollOption1Counts s) (encryptedPollOption2Counts s)
    (accSentimentScore s) (accKeywordCount s) (accPollOption1Count s)
    (accPollOption2Count s) (submissionsInCurrentBatch s) (FHE_initialized s).

Definition set_providers (v : gmap N bool) (s : State) : State :=
  mkState (owner s) v (paused s) (cooldownSeconds s) (lastSubmissionTime s)
    (lastDecryptionRequestTime s) (currentBatchId s) (batchOpen s) (decryptionContexts s)
    (encryptedSentimentScores s) (encryptedKeywordCounts s)
    (encryptedPollOption1Counts s) (encryptedPollOption2Counts s)
    (accSentimentScore s) (accKeywordCount s) (accPollOption1Count s)
    (accPollOption2Count s) (submissionsInCurrentBatch s) (FHE_initialized s).

Definition set_paused (v : bool) (s : State) : State :=
  mkState (owner s) (providers s) v (cooldownSeconds s) (lastSubmissionTime s)
    (lastDecryptionRequestTime s) (currentBatchId s) (batchOpen s) (decryptionContexts s)
    (encryptedSentimentScores s) (encryptedKeywordCounts s)
    (encryptedPollOption1Counts s) (encryptedPollOption2Counts s)
    (accSentimentScore s) (accKeywordCount s) (accPollOption1Count s)
    (accPollOption2Count s) (submissionsInCurrentBatch s) (FHE_initialized s).

Definition set_cooldownSeconds (v : uint256) (s : State) : State :=
  mkState (owner s) (providers s) (paused s) v (lastSubmissionTime s)
    (lastDecryptionRequestTime s) (currentBatchId s) (batchOpen s) (decryptionContexts s)
    (encryptedSentimentScores s) (encryptedKeywordCounts s)
    (encryptedPollOption1Counts s) (encryptedPollOption2Counts s)
    (accSentimentScore s) (accKeywordCount s) (accPollOption1Count s)
    (accPollOption2Count s) (submissionsInCurrentBatch s) (FHE_initialized s).

Definition set_lastSubmissionTime (v : gmap N N) (s : State) : State :=
  mkState (owner s) (providers s) (paused s) (cooldownSeconds s) v
    (lastDecryptionRequestTime s) (currentBatchId s) (batchOpen s) (decryptionContexts s)
    (encryptedSentimentScores s) (encryptedKeywordCounts s)
    (encryptedPollOption1Counts s) (encryptedPollOption2Counts s)
    (accSentimentScore s) (accKeywordCount s) (accPollOption1Count s)
    (accPollOption2Count s) (submissionsInCurrentBatch s) (FHE_initialized s).

Definition set_lastDecryptionRequestTime (v : gmap N N) (s : State) : State :=
  mkState (owner s) (providers s) (paused s) (cooldownSeconds s) (lastSubmissionTime s)
    v (currentBatchId s) (batchOpen s) (decryptionContexts s)
    (encryptedSentimentScores s) (encryptedKeywordCounts s)
    (encryptedPollOption1Counts s) (encryptedPollOption2Counts s)
    (accSentimentScore s) (accKeywordCount s) (accPollOption1Count s)
    (accPollOption2Count s) (submissionsInCurrentBatch s) (FHE_initialized s).

Definition set_currentBatchId (v : uint256) (s : State) : State :=
  mkState (owner s) (providers s) (paused s) (cooldownSeconds s) (lastSubmissionTime s)
    (lastDecryptionRequestTime s) v (batchOpen s) (decryptionContexts s)
    (encryptedSentimentScores s) (encryptedKeywordCounts s)
    (encryptedPollOption1Counts s) (encryptedPollOption2Counts s)
    (accSentimentScore s) (accKeywordCount s) (accPollOption1Count s)
    (accPollOption2Count s) (submissionsInCurrentBatch s) (FHE_initialized s).

Definition set_batchOpen (v : bool) (s : State) : State :=
  mkState (owner s) (providers s) (paused s) (cooldownSeconds s) (lastSubmissionTime s)
    (lastDecryptionRequestTime s) (currentBatchId s) v (decryptionContexts s)
    (encryptedSentimentScores s) (encryptedKeywordCounts s)
    (encryptedPollOption1Counts s) (encryptedPollOption2Counts s)
    (accSentimentScore s) (accKeywordCount s) (accPollOption1Count s)
    (accPollOption2Count s) (submissionsInCurrentBatch s) (FHE_initialized s).

Definition set_decryptionContexts (v : gmap N DecryptionContext) (s : State) : State :=
  mkState (owner s) (providers s) (paused s) (cooldownSeconds s) (lastSubmissionTime s)
    (lastDecryptionRequestTime s) (currentBatchId s) (batchOpen s) v
    (encryptedSentimentScores s) (encryptedKeywordCounts s)
    (encryptedPollOption1Counts s) (encryptedPollOption2Counts s)
    (accSentimentScore s) (accKeywordCount s) (accPollOption1Count s)
    (accPollOption2Count s) (submissionsInCurrentBatch s) (FHE_initialized s).

(** The four accumulators are always written together. *)
Definition set_accumulators (a b c d : euint32) (s : State) : State :=
  mkState (owner s) (providers s) (paused s) (cooldownSeconds s) (lastSubmissionTime s)
    (lastDecryptionRequestTime s) (currentBatchId s) (batchOpen s) (decryptionContexts s)
    (encryptedSentimentScores s) (encryptedKeywordCounts s)
    (encryptedPollOption1Counts s) (encryptedPollOption2Counts s)
    a b c d (submissionsInCurrentBatch s) (FHE_initialized s).

Definition set_submissionsInCurrentBatch (v : uint256) (s : State) : State :=
  mkState (owner s) (providers s) (paused s) (cooldownSeconds s) (lastSubmissionTime s)
    (lastDecryptionRequestTime s) (currentBatchId s) (batchOpen s) (decryptionContexts s)
    (encryptedSentimentScores s) (encryptedKeywordCounts s)
    (encryptedPollOption1Counts s) (encryptedPollOption2Counts s)
    (accSentimentScore s) (accKeywordCount s) (accPollOption1Count s)
    (accPollOption2Count s) v (FHE_initialized s).

Definition set_FHE_initialized (v : bool) (s : State) : State :=
  mkState (owner s) (providers s) (paused s) (cooldownSeconds s) (lastSubmissionTime s)
    (lastDecryptionRequestTime s) (currentBatchId s) (batchOpen s) (decryptionContexts s)
    (encryptedSentimentScores s) (encryptedKeywordCounts s)
    (encryptedPollOption1Counts s) (encryptedPollOption2Counts s)
    (accSentimentScore s) (accKeywordCount s) (accPollOption1Count s)
    (accPollOption2Count s) (submissionsInCurrentBatch s) v.

(** ** The call environment *)

Record Env : Type := mkEnv {
  msg_sender : address;
  block_timestamp : uint256;
  this : address;
  (* what FHE.requestDecryption returns when this call reaches it *)
  oracle_requestId : uint256
}.

Definition with_sender (a : address) (env : Env) : Env :=
  {| msg_sender := a; block_timestamp := block_timestamp env;
     this := this env; oracle_requestId := oracle_requestId env |}.

(** ** The contract monad *)

Inductive Result (A : Type) : Type :=
| Reverted (e : Err.t)
| Done (a : A) (s : State) (log : list Evt.t).
Arguments Reverted {A} e.
Arguments Done {A} a s log.

Definition M (A : Type) : Type := State -> Result A.

Definition ret {A} (a : A) : M A := fun s => Done a s [].

Definition bind {A B} (m : M A) (k : A -> M B) : M B := fun s =>
  match m s with
  | Reverted e => Reverted e
  | Done a s1 l1 =>
      match k a s1 with
      | Reverted e => Reverted e
      | Done b s2 l2 => Done b s2 (l1 ++ l2)
      end
  end.

Definition revert {A} (e : Err.t) : M A := fun _ => Reverted e.
Definition sload {A} (f : State -> A) : M A := fun s => Done (f s) s [].
Definition sstore (f : State -> State) : M unit := fun s => Done tt (f s) [].
Definition emit (ev : Evt.t) : M unit := fun s => Done tt s [ev].

(** [if (c) revert E();] *)
Definition revert_if (c : bool) (e : Err.t) : M unit :=
  if c then revert e else ret tt.

Notation "'let!' x ':=' m 'in' k" := (bind m (fun x => k))
  (at level 10, x name, m at level 100, k at level 200).
Notation "m '>>' k" := (bind m (fun _ => k))
  (at level 100, k at level 200, right associativity).

(** Checked [a + b] on [uint256]. *)
Definition checked_add (a b : uint256) : M uint256 :=
  if a + b <=? UINT256_MAX then ret (a + b) else revert (Err.Panic 0x11).

(** A transaction: the storage and the log after the call.  A revert rolls
    the storage back and leaves no event. *)
Definition transact (m : M unit) (s : State) : State * list Evt.t * option Err.t :=
  match m s with
  | Reverted e => (s, [], Some e)
  | Done _ s' log => (s', log, None)
  end.

(** ** Byte strings *)

(** [b[from:to]]; out of range reverts. *)
Definition slice (b : bytes) (from to : nat) : M bytes :=
  if (to <=? length b)%nat then ret (take (to - from) (drop from b))
  else revert (Err.Panic 0x32).

(** [abi.decode(w, (uint256))] of one 32-byte word: big-endian. *)
Definition abi_decode_uint256 (w : bytes) : uint256 :=
  fold_left (fun acc x => acc * 256 + Byte.to_N x) w 0.

(** ** Collaborators

    The FHE library ([FHE.asEuint32], [fheAdd], [FHE.toBytes32],
    [FHE.checkSignatures]) and [keccak256(abi.encode(cts, address(this)))]
    are supplied from outside the contract. *)

Record Primitives : Type := mkPrimitives {
  FHE_asEuint32 : N -> euint32;
  FHE_add : euint32 -> euint32 -> euint32;
  FHE_toBytes32 : euint32 -> bytes32;
  FHE_checkSignatures : uint256 -> bytes -> bytes -> bool;
  keccak256_encode : list bytes32 -> address -> bytes32
}.

(** ** The contract *)

Section Contract.

Context (P : Primitives).

(** *** Modifiers *)

Definition onlyOwner (env : Env) {A} (body : M A) : M A :=
  let! o := sload owner in
  revert_if (negb (msg_sender env =? o)) Err.NotOwner >>
  body.

Definition onlyProvider (env : Env) {A} (body : M A) : M A :=
  let! registered := sload (fun s => readBool (providers s) (msg_sender env)) in
  revert_if (negb registered) Err.NotProvider >>
  body.

Definition whenNotPaused {A} (body : M A) : M A :=
  let! p := sload paused in
  revert_if p Err.Paused >>
  body.

(** *** Initialisation *)

Definition _initIfNeeded : M unit :=
  let! init := sload FHE_initialized in
  if negb init then sstore (set_FHE_initialized true) else ret tt.

Definition _requireInitialized : M unit :=
  let! init := sload FHE_initialized in
  revert_if (negb init) Err.NotInitialized.

Definition constructor (env : Env) : M unit :=
  sstore (set_owner (msg_sender env)) >>
  let! o := sload owner in
  sstore (fun s => set_providers (<[o := true]> (providers s)) s) >>
  emit (Evt.ProviderAdded o) >>
  sstore (set_cooldownSeconds 60) >>
  _initIfNeeded.

(** *** Administration *)

Definition transferOwnership (env : Env) (newOwner : address) : M unit :=
  onlyOwner env (
    let! oldOwner := sload owner in
    sstore (set_owner newOwner) >>
    emit (Evt.OwnershipTransferred oldOwner newOwner)).

Definition addProvider (env : Env) (provider : address) : M unit :=
  onlyOwner env (
    sstore (fun s => set_providers (<[provider := true]> (providers s)) s) >>
    emit (Evt.ProviderAdded provider)).

Definition removeProvider (env : Env) (provider : address) : M unit :=
  onlyOwner env (
    sstore (fun s => set_providers (<[provider := false]> (providers s)) s) >>
    emit (Evt.ProviderRemoved provider)).

Definition setPaused (env : Env) (_paused : bool) : M unit :=
  onlyOwner env (
    sstore (set_paused _paused) >>
    if _paused then emit (Evt.Paused (msg_sender env))
    else emit (Evt.Unpaused (msg_sender env))).

Definition setCooldownSeconds (env : Env) (_cooldownSeconds : uint256) : M unit :=
  onlyOwner env (
    revert_if (_cooldownSeconds =? 0) Err.InvalidParameter >>
    let! oldCooldown := sload cooldownSeconds in
    sstore (set_cooldownSeconds _cooldownSeconds) >>
    emit (Evt.CooldownSecondsChanged oldCooldown _cooldownSeconds)).

(** *** Batch lifecycle *)

Definition openBatch (env : Env) : M unit :=
  onlyOwner env (whenNotPaused (
    let! isOpen := sload batchOpen in
    revert_if isOpen Err.InvalidBatchId >>
    let! id := sload currentBatchId in
    let! id' := checked_add id 1 in
    sstore (set_currentBatchId id') >>
    sstore (set_batchOpen true) >>
    sstore (set_submissionsInCurrentBatch 0) >>
    sstore (set_accumulators (FHE_asEuint32 P 0) (FHE_asEuint32 P 0)
                             (FHE_asEuint32 P 0) (FHE_asEuint32 P 0)) >>
    let! id := sload currentBatchId in
    emit (Evt.BatchOpened id))).

Definition closeBatch (env : Env) : M unit :=
  onlyOwner env (whenNotPaused (
    let! isOpen := sload batchOpen in
    revert_if (negb isOpen) Err.BatchNotOpen >>
    sstore (set_batchOpen false) >>
    let! id := sload currentBatchId in
    emit (Evt.BatchClosed id))).

(** *** Submission *)

Definition submitEncryptedData (env : Env)
    (sentimentScore keywordCount pollOption1 pollOption2 : euint32) : M unit :=
  onlyProvider env (whenNotPaused (
    let! isOpen := sload batchOpen in
    revert_if (negb isOpen) Err.BatchNotOpen >>
    let! last := sload (fun s => readUint (lastSubmissionTime s) (msg_sender env)) in
    let! cooldown := sload cooldownSeconds in
    let! earliest := checked_add last cooldown in
    revert_if (block_timestamp env <? earliest) Err.CooldownActive >>
    sstore (fun s => set_lastSubmissionTime
              (<[msg_sender env := block_timestamp env]> (lastSubmissionTime s)) s) >>
    _requireInitialized >>
    sstore (fun s => set_accumulators
              (FHE_add P (accSentimentScore s) sentimentScore)
              (FHE_add P (accKeywordCount s) keywordCount)
              (FHE_add P (accPollOption1Count s) pollOption1)
              (FHE_add P (accPollOption2Count s) pollOption2) s) >>
    let! n := sload submissionsInCurrentBatch in
    let! n' := checked_add n 1 in
    sstore (set_submissionsInCurrentBatch n') >>
    let! id := sload currentBatchId in
    emit (Evt.Submission id (msg_sender env)))).

(** *** Decryption *)

(** The four accumulator handles in the fixed order of both
    [requestBatchDecryption] and [myCallback], as [bytes32]. *)
Definition accumulatorHandles (s : State) : list bytes32 :=
  map (FHE_toBytes32 P)
    [accSentimentScore s; accKeywordCount s;
     accPollOption1Count s; accPollOption2Count s].

Definition requestBatchDecryption (env : Env) : M unit :=
  onlyOwner env (whenNotPaused (
    let! isOpen := sload batchOpen in
    revert_if isOpen Err.BatchNotClosed >>
    let! n := sload submissionsInCurrentBatch in
    revert_if (n =? 0) Err.InvalidBatchId >>
    let! last := sload (fun s => readUint (lastDecryptionRequestTime s) (msg_sender env)) in
    let! cooldown := sload cooldownSeconds in
    let! earliest := checked_add last cooldown in
    revert_if (block_timestamp env <? earliest) Err.CooldownActive >>
    sstore (fun s => set_lastDecryptionRequestTime
              (<[msg_sender env := block_timestamp env]> (lastDecryptionRequestTime s)) s) >>
    let! cts := sload accumulatorHandles in
    let stateHash := keccak256_encode P cts (this env) in
    let requestId := oracle_requestId env in
    let! id := sload currentBatchId in
    sstore (fun s => set_decryptionContexts
              (<[requestId := {| batchId := id; stateHash := stateHash;
                                 processed := false |}]> (decryptionContexts s)) s) >>
    let! id := sload currentBatchId in
    emit (Evt.DecryptionRequested requestId id))).

Definition myCallback (env : Env) (requestId : uint256)
    (cleartexts proof : bytes) : M unit :=
  let! ctx := sload (fun s => readContext (decryptionContexts s) requestId) in
  revert_if (processed ctx) Err.ReplayDetected >>
  let! cts := sload accumulatorHandles in
  let currentHash := keccak256_encode P cts (this env) in
  let! ctx := sload (fun s => readContext (decryptionContexts s) requestId) in
  revert_if (negb (currentHash =? stateHash ctx)) Err.StateMismatch >>
  revert_if (negb (FHE_checkSignatures P requestId cleartexts proof)) Err.InvalidProof >>
  let! w0 := slice cleartexts 0 32 in
  let sentimentScore := abi_decode_uint256 w0 in
  let! w1 := slice cleartexts 32 64 in
  let keywordCount := abi_decode_uint256 w1 in
  let! w2 := slice cleartexts 64 96 in
  let pollOption1Count := abi_decode_uint256 w2 in
  let! w3 := slice cleartexts 96 128 in
  let pollOption2Count := abi_decode_uint256 w3 in
  sstore (fun s =>
    let c := readContext (decryptionContexts s) requestId in
    set_decryptionContexts
      (<[requestId := {| batchId := batchId c; stateHash := stateHash c;
                         processed := true |}]> (decryptionContexts s)) s) >>
  let! ctx := sload (fun s => readContext (decryptionContexts s) requestId) in
  emit (Evt.DecryptionCompleted requestId (batchId ctx)
          sentimentScore keywordCount pollOption1Count pollOption2Count).

(** *** Call sequences *)

Inductive Call : Type :=
| CallTransferOwnership (newOwner : address)
| CallAddProvider (provider : address)
| CallRemoveProvider (provider : address)
| CallSetPaused (_paused : bool)
| CallSetCooldownSeconds (_cooldownSeconds : uint256)
| CallOpenBatch
| CallCloseBatch
| CallSubmitEncryptedData (sentimentScore keywordCount pollOption1 pollOption2 : euint32)
| CallRequestBatchDecryption
| CallMyCallback (requestId : uint256) (cleartexts proof : bytes).

Definition dispatch (env : Env) (c : Call) : M unit :=
  match c with
  | CallTransferOwnership a => transferOwnership env a
  | CallAddProvider a => addProvider env a
  | CallRemoveProvider a => removeProvider env a
  | CallSetPaused b => setPaused env b
  | CallSetCooldownSeconds v => setCooldownSeconds env v
  | CallOpenBatch => openBatch env
  | CallCloseBatch => closeBatch env
  | CallSubmitEncryptedData a b c d => submitEncryptedData env a b c d
  | CallRequestBatchDecryption => requestBatchDecryption env
  | CallMyCallback r c p => myCallback env r c p
  end.

(** The storage after one transaction, and after a sequence of them. *)
Definition step (s : State) (ec : Env * Call) : State :=
  (transact (dispatch (fst ec) (snd ec)) s).1.1.

Definition run (calls : list (Env * Call)) (s : State) : State :=
  fold_left step calls s.

(** The storage right after deployment by [msg_sender env]. *)
Definition deployed (env : Env) : State :=
  (transact (constructor env) emptyStorage).1.1.

End Contract.

(** ** Derived notions used by the statements *)

(** The commitment [myCallback] recomputes: the hash of the four current
    accumulator handles and of the contract's own address. *)
Definition currentHash (P : Primitives) (env : Env) (s : State) : bytes32 :=
  keccak256_encode P (accumulatorHandles P s) (this env).

(** The storage write of a successful callback:
    [decryptionContexts[requestId].processed = true]. *)
Definition finalized (requestId : uint256) (s : State) : State :=
  let c := readContext (decryptionContexts s) requestId in
  set_decryptionContexts
    (<[requestId := {| batchId := batchId c; stateHash := stateHash c;
                       processed := true |}]> (decryptionContexts s)) s.

(** The [i]-th 32-byte word of [cleartexts], decoded. *)
Definition decoded (cleartexts : bytes) (i : nat) : uint256 :=
  abi_decode_uint256 (take 32 (drop (32 * i) cleartexts)).

(** The event of a successful callback. *)
Definition completion (requestId : uint256) (s : State) (cleartexts : bytes) : Evt.t :=
  Evt.DecryptionCompleted requestId
    (batchId (readContext (decryptionContexts s) requestId))
    (decoded cleartexts 0) (decoded cleartexts 1)
    (decoded cleartexts 2) (decoded cleartexts 3).

(** The result of a call with its storage, if any, passed through [f]. *)
Definition onStorage {A} (f : State -> State) (r : Result A) : Result A :=
  match r with
  | Reverted e => Reverted e
  | Done a s log => Done a (f s) log
  end.

(** A request identifier handed out again would overwrite its context;
    the oracle issues each identifier once. *)
Definition never_reissued (r : uint256) (calls : list (Env * Call)) : Prop :=
  Forall (fun ec => snd ec = CallRequestBatchDecryption ->
                    oracle_requestId (fst ec) <> r) calls.

(** ** A concrete instance

    Handles are plaintext plus one, so the zero handle stays the
    uninitialised one; the digest is a polynomial hash; a proof is valid
    when it spells the request identifier. *)

Module Toy.
Definition asEuint32 (v : N) : N := v + 1.
Definition add (a b : N) : N := a + b - 1.
Definition toBytes32 (h : N) : N := h.
Definition checkSignatures (requestId : N) (cleartexts proof : list byte) : bool :=
  abi_decode_uint256 proof =? requestId.
Definition keccak (cts : list N) (a : N) : N :=
  fold_left (fun h x => (h * 1000003 + x + 1) mod 2 ^ 256) cts (a + 1).
Definition prims : Primitives :=
  mkPrimitives asEuint32 add toBytes32 checkSignatures keccak.

Definition env (sender time : N) : Env :=
  {| msg_sender := sender; block_timestamp := time; this := 42;
     oracle_requestId := 0 |}.
Definition envR (sender time requestId : N) : Env :=
  {| msg_sender := sender; block_timestamp := time; this := 42;
     oracle_requestId := requestId |}.

Definition word (v : N) : list byte :=
  repeat Byte.x00 31 ++ [default Byte.x00 (Byte.of_N v)].
Definition cleartexts : list byte := word 1 ++ word 3 ++ word 1 ++ word 0.
Definition proof7 : list byte := [Byte.x07].

(** Address 1 deploys; batch 1 is opened, receives one submission and is
    closed; its decryption is requested and the oracle answers with
    request 7. *)
Definition s0 : State := deployed (env 1 1000).
Definition sOpen : State :=
  run prims [ (env 1 1001, CallOpenBatch);
              (env 1 1002, CallSubmitEncryptedData (asEuint32 1) (asEuint32 3)
                                                   (asEuint32 1) (asEuint32 0)) ] s0.
Definition sRequested : State :=
  run prims [ (env 1 1003, CallCloseBatch);
              (envR 1 1004 7, CallRequestBatchDecryption) ] sOpen.
(** Batch 2 is opened while request 7 is outstanding. *)
Definition sNextOpen : State := run prims [ (env 1 1005, CallOpenBatch) ] sRequested.
(** The owner pauses right after deployment. *)
Definition sPaused : State := run prims [ (env 1 1001, CallSetPaused true) ] s0.
(** The owner raises the cooldown to the largest [uint256] after address
    1 submitted at time 1002. *)
Definition sHugeCooldown : State :=
  run prims [ (env 1 1500, CallSetCooldownSeconds UINT256_MAX) ] sOpen.
End Toy.

Arguments UINT256_MAX : simpl never.
Arguments accumulatorHandles : simpl never.
Arguments readContext : simpl never.
Arguments readBool : simpl never.
Arguments readUint : simpl never.
Arguments abi_decode_uint256 : simpl never.

(** ** Notions for the properties of the remaining operations *)

(** The functions that carry the [onlyOwner] modifier. *)
Definition isOwnerOnly (c : Call) : bool :=
  match c with
  | CallSubmitEncryptedData _ _ _ _ | CallMyCallback _ _ _ => false
  | _ => true
  end.

(** The owner's functions without [whenNotPaused], [setPaused] apart. *)
Definition isAdministrative (c : Call) : bool :=
  match c with
  | CallTransferOwnership _ | CallAddProvider _ | CallRemoveProvider _
  | CallSetCooldownSeconds _ => true
  | _ => false
  end.

(** The error of one transaction, if it reverted. *)
Definition outcome (P : Primitives) (s : State) (ec : Env * Call) : option Err.t :=
  (transact (dispatch P (fst ec) (snd ec)) s).2.

(** Every transaction of the sequence goes through. *)
Fixpoint all_succeed (P : Primitives) (calls : list (Env * Call)) (s : State) : Prop :=
  match calls with
  | [] => True
  | ec :: rest => outcome P s ec = None /\ all_succeed P rest (step P s ec)
  end.

(** The four arguments of one [submitEncryptedData] call. *)
Record Contribution : Type := mkContribution {
  c_sentimentScore : euint32;
  c_keywordCount : euint32;
  c_pollOption1 : euint32;
  c_pollOption2 : euint32
}.

Definition submission (x : Env * Contribution) : Env * Call :=
  (fst x, CallSubmitEncryptedData (c_sentimentScore (snd x)) (c_keywordCount (snd x))
            (c_pollOption1 (snd x)) (c_pollOption2 (snd x))).

(** [fheAdd] applied contribution by contribution, in order. *)
Definition accumulated (P : Primitives) (field : Contribution -> euint32)
    (subs : list (Env * Contribution)) (start : euint32) : euint32 :=
  fold_left (fun acc x => FHE_add P acc (field (snd x))) subs start.

Definition no_openBatch (calls : list (Env * Call)) : Prop :=
  Forall (fun ec => snd ec <> CallOpenBatch) calls.

Definition no_delivery_of (r : uint256) (calls : list (Env * Call)) : Prop :=
  Forall (fun ec => forall cleartexts proof,
              snd ec <> CallMyCallback r cleartexts proof) calls.

(** The four accumulators and the submission counter of the current batch. *)
Definition batchContents (s : State) : euint32 * euint32 * euint32 * euint32 * uint256 :=
  (accSentimentScore s, accKeywordCount s, accPollOption1Count s,
   accPollOption2Count s, submissionsInCurrentBatch s).

(** Further storages and call sequences of the concrete instance. *)
Module Scenario.
(** Batch 1 right after it was opened, and after it was closed with its
    one submission. *)
Definition sFresh : State := run Toy.prims [ (Toy.env 1 1001, CallOpenBatch) ] Toy.s0.
Definition sClosed : State := run Toy.prims [ (Toy.env 1 1003, CallCloseBatch) ] Toy.sOpen.
(** Two submissions, by the deployer and by a second provider. *)
Definition twoSubmissions : list (Env * Contribution) :=
  [ (Toy.env 1 1100, mkContribution 2 4 2 1);
    (Toy.env 5 1101, mkContribution 3 1 1 2) ].
Definition sTwoProviders : State :=
  run Toy.prims [ (Toy.env 1 1002, CallAddProvider 5) ] sFresh.
(** Calls of several senders while request 7 is outstanding: none opens a
    batch, none delivers request 7. *)
Definition meanwhile : list (Env * Call) :=
  [ (Toy.env 1 1100, CallAddProvider 5);
    (Toy.env 5 1200, CallSubmitEncryptedData 2 2 2 2);
    (Toy.env 1 1250, CallSetCooldownSeconds 30);
    (Toy.envR 1 1300 8, CallRequestBatchDecryption);
    (Toy.env 9 1400, CallMyCallback 8 Toy.cleartexts [Byte.x08]) ].
End Scenario.

(** ** Proof support *)

Ltac run_contract :=
  unfold transferOwnership, addProvider, removeProvider, setPaused,
    setCooldownSeconds, openBatch, closeBatch, submitEncryptedData,
    requestBatchDecryption, onlyOwner, onlyProvider, whenNotPaused,
    _requireInitialized, _initIfNeeded, checked_add,
    bind, sload, sstore, emit, revert_if, ret, revert;
  cbn.

Ltac split_gates :=
  repeat match goal with
         | |- context [if ?b then _ else _] => destruct b eqn:?; cbn
         end.

(** Rewrites the hypotheses about flags into the goal. *)
Ltac use_flags :=
  repeat match goal with
         | H : ?b = true |- context [?b] => rewrite H; cbn
         | H : ?b = false |- context [?b] => rewrite H; cbn
         | H : msg_sender ?env = owner ?s |- context [msg_sender ?env =? owner ?s] =>
             rewrite H, N.eqb_refl; cbn
         end.

(** ** The decryption callback, case by case *)

Section Callback.
Context (P : Primitives).

Lemma slice_in_range (b : bytes) (from to : nat) (s : State) :
  (to <= length b)%nat ->
  slice b from to s = Done (take (to - from) (drop from b)) s [].
Proof.
  intros H. unfold slice. apply Nat.leb_le in H. rewrite H. reflexivity.
Qed.

Lemma myCallback_replay env r c p s :
  processed (readContext (decryptionContexts s) r) = true ->
  myCallback P env r c p s = Reverted Err.ReplayDetected.
Proof.
  intros H. unfold myCallback, bind, sload, sstore, emit, revert_if, ret, revert. rewrite H. reflexivity.
Qed.

Lemma myCallback_mismatch env r c p s :
  processed (readContext (decryptionContexts s) r) = false ->
  currentHash P env s <> stateHash (readContext (decryptionContexts s) r) ->
  myCallback P env r c p s = Reverted Err.StateMismatch.
Proof.
  intros H Hne. apply N.eqb_neq in Hne. unfold currentHash in Hne.
  unfold myCallback, bind, sload, sstore, emit, revert_if, ret, revert. rewrite H. cbn.
  rewrite Hne. reflexivity.
Qed.

Lemma myCallback_badproof env r c p s :
  processed (readContext (decryptionContexts s) r) = false ->
  currentHash P env s = stateHash (readContext (decryptionContexts s) r) ->
  FHE_checkSignatures P r c p = false ->
  myCallback P env r c p s = Reverted Err.InvalidProof.
Proof.
  intros H He Hp. apply N.eqb_eq in He. unfold currentHash in He.
  unfold myCallback, bind, sload, sstore, emit, revert_if, ret, revert. rewrite H. cbn.
  rewrite He, Hp. reflexivity.
Qed.

Lemma myCallback_success env r c p s :
  processed (readContext (decryptionContexts s) r) = false ->
  currentHash P env s = stateHash (readContext (decryptionContexts s) r) ->
  FHE_checkSignatures P r c p = true ->
  (128 <= length c)%nat ->
  myCallback P env r c p s =
    Done tt (finalized r s)
      [completion r s c].
Proof.
  intros H He Hp Hl. apply N.eqb_eq in He. unfold currentHash in He.
  unfold myCallback, bind, sload, sstore, emit, revert_if, ret, revert. rewrite H. cbn.
  rewrite He, Hp. cbn.
  rewrite !slice_in_range by lia. cbn.
  unfold finalized, readContext. cbn. rewrite lookup_insert_eq. reflexivity.
Qed.

Lemma slice_out_of_range (b : bytes) (from to : nat) (s : State) :
  (length b < to)%nat -> slice b from to s = Reverted (Err.Panic 0x32).
Proof.
  intros H. unfold slice. apply Nat.leb_gt in H. rewrite H. reflexivity.
Qed.

Lemma myCallback_result env r c p s :
  (exists e, myCallback P env r c p s = Reverted e) \/
  (exists log, myCallback P env r c p s = Done tt (finalized r s) log).
Proof.
  destruct (processed (readContext (decryptionContexts s) r)) eqn:Hp.
  { left. eexists. apply myCallback_replay, Hp. }
  destruct (N.eq_dec (currentHash P env s)
              (stateHash (readContext (decryptionContexts s) r))) as [He|He].
  2: { left. eexists. apply myCallback_mismatch; assumption. }
  destruct (FHE_checkSignatures P r c p) eqn:Hs.
  2: { left. eexists. apply myCallback_badproof; assumption. }
  destruct (le_lt_dec 128 (length c)) as [Hl|Hl].
  { right. eexists. apply myCallback_success; assumption. }
  left. apply N.eqb_eq in He. unfold currentHash in He.
  unfold myCallback, bind, sload, sstore, emit, revert_if, ret, revert.
  rewrite Hp. cbn. rewrite He, Hs. cbn.
  destruct (le_lt_dec 32 (length c)).
  2: { rewrite slice_out_of_range by lia. eauto. }
  rewrite slice_in_range by lia.
  destruct (le_lt_dec 64 (length c)).
  2: { rewrite (slice_out_of_range c 32 64) by lia. eauto. }
  rewrite slice_in_range by lia.
  destruct (le_lt_dec 96 (length c)).
  2: { rewrite (slice_out_of_range c 64 96) by lia. eauto. }
  rewrite slice_in_range by lia.
  rewrite (slice_out_of_range c 96 128) by lia. eauto.
Qed.

Lemma processed_finalized r r' s :
  processed (readContext (decryptionContexts s) r) = true ->
  processed (readContext (decryptionContexts (finalized r' s)) r) = true.
Proof.
  intros H. unfold finalized, readContext in *. cbn.
  destruct (decide (r' = r)) as [->|Hne].
  - rewrite lookup_insert_eq. reflexivity.
  - rewrite lookup_insert_ne by assumption. exact H.
Qed.

Lemma processed_step r s ec :
  processed (readContext (decryptionContexts s) r) = true ->
  (snd ec = CallRequestBatchDecryption -> oracle_requestId (fst ec) <> r) ->
  processed (readContext (decryptionContexts (step P s ec)) r) = true.
Proof.
  intros H Hfresh. destruct ec as [env c]. unfold step, transact. cbn [fst snd] in *.
  destruct c; cbn [dispatch];
    try (run_contract; split_gates; exact H).
  - specialize (Hfresh eq_refl). run_contract; split_gates; try exact H.
    unfold readContext in *. cbn. rewrite lookup_insert_ne by assumption. exact H.
  - destruct (myCallback_result env requestId cleartexts proof s) as [[e ->]|[log ->]].
    + exact H.
    + cbn. apply processed_finalized, H.
Qed.

Lemma processed_run r calls : forall s,
  processed (readContext (decryptionContexts s) r) = true ->
  never_reissued r calls ->
  processed (readContext (decryptionContexts (run P calls s)) r) = true.
Proof.
  induction calls as [|ec calls IH]; intros s H Hall; cbn.
  - exact H.
  - inversion Hall; subst. apply IH; [|assumption].
    apply processed_step; assumption.
Qed.
End Callback.

(** ** Finalization of a decryption request *)

Section Finalization.
Context (P : Primitives).

(** C1. Exactly-once finalization.  When the context stored under [r] is
    not yet processed and its commitment equals the recomputed one, a
    delivery with a valid proof (over the four 32-byte cleartext words)
    succeeds, sets [processed] and emits [DecryptionCompleted]; from then
    on every call of the callback with the same [r], for any caller,
    cleartexts and proof, and after any further calls of the contract in
    which the oracle does not hand out [r] again, reverts with
    [ReplayDetected], leaving the storage as it was and the log empty. *)
Theorem callback_finalizes_exactly_once
    (env : Env) (r : uint256) (cleartexts proof : bytes) (s : State)
    (ctx : DecryptionContext) :
  decryptionContexts s !! r = Some ctx ->
  processed ctx = false ->
  stateHash ctx = currentHash P env s ->
  FHE_checkSignatures P r cleartexts proof = true ->
  (128 <= length cleartexts)%nat ->
  let s' := finalized r s in
  transact (myCallback P env r cleartexts proof) s =
    (s', [Evt.DecryptionCompleted r (batchId ctx)
            (decoded cleartexts 0) (decoded cleartexts 1)
            (decoded cleartexts 2) (decoded cleartexts 3)], None)
  /\ decryptionContexts s' !! r =
       Some {| batchId := batchId ctx; stateHash := stateHash ctx;
               processed := true |}
  /\ (forall env' cleartexts' proof',
        transact (myCallback P env' r cleartexts' proof') s' =
          (s', [], Some Err.ReplayDetected))
  /\ (forall calls env' cleartexts' proof',
        never_reissued r calls ->
        transact (myCallback P env' r cleartexts' proof') (run P calls s') =
          (run P calls s', [], Some Err.ReplayDetected)).
Proof.
  intros Hctx Hproc Hhash Hsig Hlen s'.
  assert (Hread : readContext (decryptionContexts s) r = ctx).
  { unfold readContext. rewrite Hctx. reflexivity. }
  assert (Hdone : processed (readContext (decryptionContexts s') r) = true).
  { unfold s', finalized, readContext. cbn. rewrite lookup_insert_eq. reflexivity. }
  assert (Hlater : forall calls env' c' p',
             never_reissued r calls ->
             transact (myCallback P env' r c' p') (run P calls s') =
               (run P calls s', [], Some Err.ReplayDetected)).
  { intros calls env' c' p' Hfresh. unfold transact.
    rewrite myCallback_replay; [reflexivity|].
    apply processed_run; assumption. }
  split; [|split; [|split]].
  - unfold transact. rewrite myCallback_success; try assumption.
    + unfold completion. rewrite Hread. reflexivity.
    + rewrite Hread. exact Hproc.
    + rewrite Hread. symmetry. exact Hhash.
  - unfold s', finalized. cbn. rewrite lookup_insert_eq, Hread. reflexivity.
  - intros env' c' p'. apply (Hlater [] env' c' p'). constructor.
  - exact Hlater.
Qed.

(** C2, as the contract has it.  The callback compares the stored
    commitment with the hash of the contract's single current set of
    accumulator handles, whatever [batchId] the context records: an
    otherwise valid delivery succeeds when the two agree and reverts with
    [StateMismatch] when they differ.  [openBatch] resets the four
    handles to [FHE.asEuint32(0)] and keeps the contexts, so once the
    next batch is opened the delivery for the previous batch reverts with
    [StateMismatch] unless the hash of the reset handles happens to equal
    the stored commitment. *)
Theorem callback_checks_current_accumulators
    (env : Env) (r : uint256) (cleartexts proof : bytes) (s : State)
    (ctx : DecryptionContext) :
  decryptionContexts s !! r = Some ctx ->
  processed ctx = false ->
  FHE_checkSignatures P r cleartexts proof = true ->
  (128 <= length cleartexts)%nat ->
  (currentHash P env s = stateHash ctx ->
     myCallback P env r cleartexts proof s =
       Done tt (finalized r s) [completion r s cleartexts])
  /\ (currentHash P env s <> stateHash ctx ->
        myCallback P env r cleartexts proof s = Reverted Err.StateMismatch)
  /\ (forall envOwner s1 log,
        openBatch P envOwner s = Done tt s1 log ->
        accumulatorHandles P s1 =
          map (FHE_toBytes32 P) (repeat (FHE_asEuint32 P 0) 4)
        /\ decryptionContexts s1 = decryptionContexts s
        /\ (keccak256_encode P
              (map (FHE_toBytes32 P) (repeat (FHE_asEuint32 P 0) 4)) (this env)
              <> stateHash ctx ->
            myCallback P env r cleartexts proof s1 = Reverted Err.StateMismatch)).
Proof.
  intros Hctx Hproc Hsig Hlen.
  assert (Hread : readContext (decryptionContexts s) r = ctx).
  { unfold readContext. rewrite Hctx. reflexivity. }
  split; [|split].
  - intros Hhash. apply myCallback_success; rewrite ?Hread; assumption.
  - intros Hhash. apply myCallback_mismatch; rewrite ?Hread; assumption.
  - intros envOwner s1 log Hopen.
    assert (Hs1 : accumulatorHandles P s1 =
                    map (FHE_toBytes32 P) (repeat (FHE_asEuint32 P 0) 4)
                  /\ decryptionContexts s1 = decryptionContexts s).
    { revert Hopen. run_contract. split_gates; intros Hopen;
        try discriminate Hopen.
      injection Hopen as <- _. split; reflexivity. }
    destruct Hs1 as [Hacc Hctxs]. split; [exact Hacc|split; [exact Hctxs|]].
    intros Hne. apply myCallback_mismatch.
    + rewrite Hctxs, Hread. exact Hproc.
    + unfold currentHash. rewrite Hacc, Hctxs, Hread. exact Hne.
Qed.

(** C3, as the contract has it.  A request identifier under which no
    context was ever stored reads as the zero context (batch 0, commitment
    0, not processed); the contract has no unknown-request error.  The
    callback then reverts with [StateMismatch], for all cleartexts and all
    proofs, whenever the hash of the current accumulator handles is not
    zero, and leaves the storage untouched. *)
Theorem callback_unknown_request_is_state_mismatch
    (env : Env) (r : uint256) (cleartexts proof : bytes) (s : State) :
  decryptionContexts s !! r = None ->
  currentHash P env s <> 0 ->
  myCallback P env r cleartexts proof s = Reverted Err.StateMismatch
  /\ transact (myCallback P env r cleartexts proof) s =
       (s, [], Some Err.StateMismatch).
Proof.
  intros Hnone Hne.
  assert (Hread : readContext (decryptionContexts s) r = zeroContext).
  { unfold readContext. rewrite Hnone. reflexivity. }
  assert (H : myCallback P env r cleartexts proof s = Reverted Err.StateMismatch).
  { apply myCallback_mismatch; rewrite Hread; [reflexivity|exact Hne]. }
  split; [exact H|]. unfold transact. rewrite H. reflexivity.
Qed.

(** C4. Tamper detection with retryability.  For a context that is not
    yet processed: when the current accumulator handles differ from the
    handles [cts0] the stored commitment was computed from (and the hash
    does not collide on the two), the callback reverts with
    [StateMismatch].  Whenever the callback reverts with [StateMismatch]
    or [InvalidProof], the context was and stays unprocessed, the storage
    is unchanged and nothing is logged; a later delivery of the same
    request with a valid proof then succeeds in every storage that holds
    the same context and whose handles hash to the commitment, and after
    an [InvalidProof] that is the storage of the failed call itself. *)
Theorem callback_tamper_detection_and_retry
    (env : Env) (r : uint256) (cleartexts proof : bytes) (s : State) :
  (forall cts0,
      processed (readContext (decryptionContexts s) r) = false ->
      stateHash (readContext (decryptionContexts s) r) =
        keccak256_encode P cts0 (this env) ->
      accumulatorHandles P s <> cts0 ->
      (keccak256_encode P (accumulatorHandles P s) (this env) =
         keccak256_encode P cts0 (this env) -> accumulatorHandles P s = cts0) ->
      myCallback P env r cleartexts proof s = Reverted Err.StateMismatch)
  /\ (forall e,
        myCallback P env r cleartexts proof s = Reverted e ->
        e = Err.StateMismatch \/ e = Err.InvalidProof ->
        let s' := (transact (myCallback P env r cleartexts proof) s).1.1 in
        transact (myCallback P env r cleartexts proof) s = (s, [], Some e)
        /\ processed (readContext (decryptionContexts s') r) = false
        /\ (forall env2 cleartexts2 proof2 s2,
              decryptionContexts s2 !! r = decryptionContexts s' !! r ->
              currentHash P env2 s2 =
                stateHash (readContext (decryptionContexts s') r) ->
              FHE_checkSignatures P r cleartexts2 proof2 = true ->
              (128 <= length cleartexts2)%nat ->
              transact (myCallback P env2 r cleartexts2 proof2) s2 =
                (finalized r s2, [completion r s2 cleartexts2], None))
        /\ (e = Err.InvalidProof ->
            forall cleartexts2 proof2,
              FHE_checkSignatures P r cleartexts2 proof2 = true ->
              (128 <= length cleartexts2)%nat ->
              transact (myCallback P env r cleartexts2 proof2) s' =
                (finalized r s', [completion r s' cleartexts2], None))).
Proof.
  split.
  - intros cts0 Hproc Hstored Hdiff Hinj.
    apply myCallback_mismatch; [exact Hproc|].
    unfold currentHash. rewrite Hstored. intros Heq. apply Hdiff, Hinj, Heq.
  - intros e Hrev He s'.
    assert (Hs' : s' = s).
    { unfold s', transact. rewrite Hrev. reflexivity. }
    assert (Hproc : processed (readContext (decryptionContexts s) r) = false).
    { destruct (processed (readContext (decryptionContexts s) r)) eqn:Hp;
        [|reflexivity].
      rewrite (myCallback_replay P env r cleartexts proof s Hp) in Hrev.
      destruct He as [->| ->]; discriminate Hrev. }
    rewrite Hs'. split; [|split; [|split]].
    + unfold transact. rewrite Hrev. reflexivity.
    + exact Hproc.
    + intros env2 c2 p2 s2 Hsame Hhash Hsig Hlen.
      assert (Hread : readContext (decryptionContexts s2) r =
                      readContext (decryptionContexts s) r).
      { unfold readContext. rewrite Hsame. reflexivity. }
      unfold transact. rewrite myCallback_success; rewrite ?Hread; auto.
    + intros -> c2 p2 Hsig Hlen.
      destruct (N.eq_dec (currentHash P env s)
                  (stateHash (readContext (decryptionContexts s) r))) as [Hh|Hh].
      * unfold transact. rewrite myCallback_success; auto.
      * rewrite (myCallback_mismatch P env r cleartexts proof s Hproc Hh) in Hrev.
        discriminate Hrev.
Qed.

End Finalization.

(** ** Gates of the owner and provider operations *)

Section Gates.
Context (P : Primitives).

(** C5, as the contract has it.  While [paused] is set, [openBatch],
    [closeBatch], [submitEncryptedData] and [requestBatchDecryption] all
    revert: with [Paused] when the caller passes the role check that runs
    first (the owner, or a provider for a submission), and with that
    check's own error ([NotOwner], [NotProvider]) otherwise.  The flag
    has no effect on [myCallback]: on storages that differ only in
    [paused] it gives the same outcome, log and storage writes. *)
Theorem paused_blocks_operations_not_callback :
  (forall env s,
      paused s = true ->
      openBatch P env s =
        Reverted (if msg_sender env =? owner s then Err.Paused else Err.NotOwner)
      /\ closeBatch env s =
           Reverted (if msg_sender env =? owner s then Err.Paused else Err.NotOwner)
      /\ requestBatchDecryption P env s =
           Reverted (if msg_sender env =? owner s then Err.Paused else Err.NotOwner)
      /\ (forall a b c d,
            submitEncryptedData P env a b c d s =
              Reverted (if readBool (providers s) (msg_sender env)
                        then Err.Paused else Err.NotProvider)))
  /\ (forall env r cleartexts proof s b,
        myCallback P env r cleartexts proof (set_paused b s) =
          onStorage (set_paused b) (myCallback P env r cleartexts proof s)).
Proof.
  split.
  - intros env s Hp. repeat split; intros; run_contract;
      destruct (msg_sender env =? owner s) eqn:Ho;
      try destruct (readBool (providers s) (msg_sender env)) eqn:Hq;
      cbn; rewrite ?Hp; reflexivity.
  - intros env r c p s b.
    unfold myCallback, accumulatorHandles, slice,
      bind, sload, sstore, emit, revert_if, ret, revert.
    cbn. split_gates; reflexivity.
Qed.

(** C6, as the contract has it.  A successful submission records its
    block time as the provider's last submission time.  For a provider
    whose recorded time is [t1], with every other precondition of a
    submission holding: when [t1 + cooldownSeconds] fits in a [uint256],
    the submission at time [t2] reverts with [CooldownActive] exactly
    when [t2 < t1 + cooldownSeconds], and from [t2 = t1 + cooldownSeconds]
    on it succeeds and records [t2]; when the sum does not fit, the
    checked addition reverts with the arithmetic panic. *)
Theorem cooldown_boundary :
  (forall env1 a b c d s0 s1 log,
      submitEncryptedData P env1 a b c d s0 = Done tt s1 log ->
      readUint (lastSubmissionTime s1) (msg_sender env1) = block_timestamp env1)
  /\ (forall env2 a b c d s t1,
        readUint (lastSubmissionTime s) (msg_sender env2) = t1 ->
        readBool (providers s) (msg_sender env2) = true ->
        paused s = false ->
        batchOpen s = true ->
        FHE_initialized s = true ->
        submissionsInCurrentBatch s + 1 <= UINT256_MAX ->
        let t2 := block_timestamp env2 in
        (t1 + cooldownSeconds s <= UINT256_MAX ->
           (submitEncryptedData P env2 a b c d s = Reverted Err.CooldownActive
            <-> t2 < t1 + cooldownSeconds s)
           /\ (t1 + cooldownSeconds s <= t2 ->
               exists s2 log,
                 submitEncryptedData P env2 a b c d s = Done tt s2 log
                 /\ readUint (lastSubmissionTime s2) (msg_sender env2) = t2))
        /\ (UINT256_MAX < t1 + cooldownSeconds s ->
            submitEncryptedData P env2 a b c d s = Reverted (Err.Panic 0x11))).
Proof.
  split.
  - intros env1 a b c d s0 s1 log. run_contract. split_gates; intros H;
      try discriminate H.
    injection H as <- _. cbn. unfold readUint. rewrite lookup_insert_eq. reflexivity.
  - intros env2 a b c d s t1 Hlast Hprov Hpaused Hopen Hinit Hcount t2.
    apply N.leb_le in Hcount.
    split.
    + intros Hfit. apply N.leb_le in Hfit.
      destruct (t2 <? t1 + cooldownSeconds s) eqn:Hcmp.
      * assert (Hrev : submitEncryptedData P env2 a b c d s =
                       Reverted Err.CooldownActive).
        { run_contract. rewrite Hprov. cbn. rewrite Hpaused. cbn.
          rewrite Hopen. cbn. rewrite Hlast, Hfit. cbn.
          fold t2. rewrite Hcmp. reflexivity. }
        apply N.ltb_lt in Hcmp. split; [split; auto|]. lia.
      * assert (Hok : submitEncryptedData P env2 a b c d s =
                  Done tt
                    (set_submissionsInCurrentBatch (submissionsInCurrentBatch s + 1)
                       (set_accumulators
                          (FHE_add P (accSentimentScore s) a)
                          (FHE_add P (accKeywordCount s) b)
                          (FHE_add P (accPollOption1Count s) c)
                          (FHE_add P (accPollOption2Count s) d)
                          (set_lastSubmissionTime
                             (<[msg_sender env2 := t2]> (lastSubmissionTime s)) s)))
                    [Evt.Submission (currentBatchId s) (msg_sender env2)]).
        { run_contract. rewrite Hprov. cbn. rewrite Hpaused. cbn.
          rewrite Hopen. cbn. rewrite Hlast, Hfit. cbn.
          fold t2. rewrite Hcmp. cbn. rewrite Hinit. cbn. rewrite Hcount.
          reflexivity. }
        apply N.ltb_ge in Hcmp. split; [split|].
        -- rewrite Hok. discriminate.
        -- lia.
        -- intros _. eexists _, _. split; [exact Hok|].
           cbn. unfold readUint. rewrite lookup_insert_eq. reflexivity.
    + intros Hover. apply N.leb_gt in Hover.
      run_contract. rewrite Hprov. cbn. rewrite Hpaused. cbn.
      rewrite Hopen. cbn. rewrite Hlast, Hover. reflexivity.
Qed.

(** C7. Preconditions of a decryption request.  Called by the owner
    while the contract is not paused, [requestBatchDecryption] reverts
    with [BatchNotClosed] (the spec's BatchStillOpen) whenever the batch
    is open, and with [InvalidBatchId] (the spec's EmptyBatch) whenever
    the batch is closed and [submissionsInCurrentBatch] is 0; it gets past
    these two gates exactly for a closed batch with at least one
    submission.  For any caller, a request that succeeds was made on a
    closed batch with at least one submission. *)
Theorem requestBatchDecryption_preconditions (env : Env) (s : State) :
  (msg_sender env = owner s ->
   paused s = false ->
   (batchOpen s = true ->
      requestBatchDecryption P env s = Reverted Err.BatchNotClosed)
   /\ (batchOpen s = false ->
       submissionsInCurrentBatch s = 0 ->
       requestBatchDecryption P env s = Reverted Err.InvalidBatchId)
   /\ ((requestBatchDecryption P env s <> Reverted Err.BatchNotClosed
        /\ requestBatchDecryption P env s <> Reverted Err.InvalidBatchId)
       <-> (batchOpen s = false /\ 0 < submissionsInCurrentBatch s)))
  /\ (forall s' log,
        requestBatchDecryption P env s = Done tt s' log ->
        batchOpen s = false /\ 0 < submissionsInCurrentBatch s).
Proof.
  split.
  - intros Howner Hpaused.
    assert (Hopen : batchOpen s = true ->
              requestBatchDecryption P env s = Reverted Err.BatchNotClosed).
    { intros Hopen. run_contract. use_flags. reflexivity. }
    assert (Hempty : batchOpen s = false -> submissionsInCurrentBatch s = 0 ->
              requestBatchDecryption P env s = Reverted Err.InvalidBatchId).
    { intros Hclosed Hzero. run_contract. use_flags. rewrite Hzero. reflexivity. }
    split; [exact Hopen|split; [exact Hempty|]].
    split.
    + intros [H1 H2]. destruct (batchOpen s) eqn:Hb.
      { exfalso. apply H1, Hopen. reflexivity. }
      split; [reflexivity|].
      destruct (N.eq_dec (submissionsInCurrentBatch s) 0) as [Hz|Hz]; [|lia].
      exfalso. apply H2, Hempty; [reflexivity|exact Hz].
    + intros [Hclosed Hpos].
      assert (Hnz : (submissionsInCurrentBatch s =? 0) = false)
        by (apply N.eqb_neq; lia).
      split; run_contract; use_flags; split_gates; discriminate.
  - intros s' log. run_contract. split_gates; intros H; try discriminate H.
    split; [reflexivity|].
    match goal with Hz : (submissionsInCurrentBatch s =? 0) = false |- _ =>
      apply N.eqb_neq in Hz; lia end.
Qed.

(** C8. Batch lifecycle errors.  With the contract not paused: called by
    the owner while a batch is open, [openBatch] reverts with
    [InvalidBatchId] (the spec's BatchAlreadyOpen) and changes no
    storage; called by the owner while no batch is open, [closeBatch]
    reverts with [BatchNotOpen]; called by a provider while no batch is
    open, [submitEncryptedData] reverts with [BatchNotOpen]. *)
Theorem batch_lifecycle_errors (env : Env) (s : State) :
  paused s = false ->
  (msg_sender env = owner s ->
   batchOpen s = true ->
   openBatch P env s = Reverted Err.InvalidBatchId
   /\ transact (openBatch P env) s = (s, [], Some Err.InvalidBatchId))
  /\ (msg_sender env = owner s ->
      batchOpen s = false ->
      closeBatch env s = Reverted Err.BatchNotOpen
      /\ transact (closeBatch env) s = (s, [], Some Err.BatchNotOpen))
  /\ (readBool (providers s) (msg_sender env) = true ->
      batchOpen s = false ->
      forall a b c d,
        submitEncryptedData P env a b c d s = Reverted Err.BatchNotOpen
        /\ transact (submitEncryptedData P env a b c d) s =
             (s, [], Some Err.BatchNotOpen)).
Proof.
  intros Hpaused. split; [|split].
  - intros Howner Hopen.
    assert (H : openBatch P env s = Reverted Err.InvalidBatchId)
      by (run_contract; use_flags; reflexivity).
    split; [exact H|]. unfold transact. rewrite H. reflexivity.
  - intros Howner Hclosed.
    assert (H : closeBatch env s = Reverted Err.BatchNotOpen)
      by (run_contract; use_flags; reflexivity).
    split; [exact H|]. unfold transact. rewrite H. reflexivity.
  - intros Hprov Hclosed a b c d.
    assert (H : submitEncryptedData P env a b c d s = Reverted Err.BatchNotOpen)
      by (run_contract; use_flags; reflexivity).
    split; [exact H|]. unfold transact. rewrite H. reflexivity.
Qed.

End Gates.

(** ** Callers of the callback, and ownership *)

Section Callers.
Context (P : Primitives).

(** C9. The callback has no caller-based access control.  Two
    invocations on the same storage with the same request identifier,
    cleartexts and proof, made from any two call environments of this
    contract (in particular from different senders), have the same
    outcome: the same error, or the same storage and the same event.
    Whoever calls, a request that is not yet processed, whose commitment
    matches and whose proof verifies is finalized. *)
Theorem callback_is_caller_independent
    (env1 env2 : Env) (r : uint256) (cleartexts proof : bytes) (s : State) :
  this env1 = this env2 ->
  myCallback P env1 r cleartexts proof s = myCallback P env2 r cleartexts proof s
  /\ transact (myCallback P env1 r cleartexts proof) s =
       transact (myCallback P env2 r cleartexts proof) s
  /\ (processed (readContext (decryptionContexts s) r) = false ->
      currentHash P env1 s = stateHash (readContext (decryptionContexts s) r) ->
      FHE_checkSignatures P r cleartexts proof = true ->
      (128 <= length cleartexts)%nat ->
      forall caller,
        myCallback P (with_sender caller env1) r cleartexts proof s =
          Done tt (finalized r s) [completion r s cleartexts]).
Proof.
  intros Hthis.
  assert (H : myCallback P env1 r cleartexts proof s =
              myCallback P env2 r cleartexts proof s).
  { unfold myCallback. rewrite Hthis. reflexivity. }
  split; [exact H|split].
  - unfold transact. rewrite H. reflexivity.
  - intros Hproc Hhash Hsig Hlen caller.
    apply myCallback_success; assumption.
Qed.

End Callers.

(** C10. [transferOwnership], called by the owner, writes the [owner]
    field and nothing else and emits [OwnershipTransferred]; called by
    anyone else it reverts.  The provider mapping is untouched: the deployer,
    registered as a provider by the constructor, is still a provider after
    handing the ownership over, and the new owner is a provider only if it
    was one before. *)
Theorem transferOwnership_changes_only_owner
    (env : Env) (newOwner : address) (s : State) :
  (msg_sender env = owner s ->
   transferOwnership env newOwner s =
     Done tt (set_owner newOwner s) [Evt.OwnershipTransferred (owner s) newOwner]
   /\ owner (set_owner newOwner s) = newOwner
   /\ providers (set_owner newOwner s) = providers s
   /\ set_owner (owner s) (set_owner newOwner s) = s)
  /\ (msg_sender env <> owner s ->
      transact (transferOwnership env newOwner) s = (s, [], Some Err.NotOwner))
  /\ (forall envD,
        let deployer := msg_sender envD in
        let d := deployed envD in
        let d' := (transact (transferOwnership (with_sender deployer env) newOwner) d).1.1 in
        owner d = deployer
        /\ readBool (providers d) deployer = true
        /\ owner d' = newOwner
        /\ readBool (providers d') deployer = true
        /\ (newOwner <> deployer -> readBool (providers d') newOwner = false)).
Proof.
  split; [|split].
  - intros Howner. split; [|split; [|split]].
    + run_contract. use_flags. reflexivity.
    + reflexivity.
    + reflexivity.
    + destruct s; reflexivity.
  - intros Hne. apply N.eqb_neq in Hne. unfold transact. run_contract.
    rewrite Hne. reflexivity.
  - intros envD deployer d d'.
    assert (Hd' : d' = set_owner newOwner d).
    { unfold d', d, deployed, transact. run_contract.
      rewrite N.eqb_refl. reflexivity. }
    rewrite Hd'. unfold d, deployed, transact, constructor. run_contract.
    unfold readBool. cbn. rewrite lookup_insert_eq.
    repeat split; try reflexivity.
    intros Hne. rewrite lookup_insert_ne.
    + rewrite lookup_empty. reflexivity.
    + intros E. apply Hne. symmetry. exact E.
Qed.

(** ** The statements at concrete inputs *)

Lemma callback_finalizes_exactly_once_witness :
  transact (myCallback Toy.prims (Toy.env 9 2000) 7 Toy.cleartexts Toy.proof7)
    Toy.sRequested =
    (finalized 7 Toy.sRequested, [Evt.DecryptionCompleted 7 1 1 3 1 0], None).
Proof.
  refine (proj1 (callback_finalizes_exactly_once Toy.prims (Toy.env 9 2000) 7
                   Toy.cleartexts Toy.proof7 Toy.sRequested
                   {| batchId := 1; stateHash := 43000519002354004758003620;
                      processed := false |} _ _ _ _ _)).
  - vm_compute. reflexivity.
  - reflexivity.
  - vm_compute. reflexivity.
  - vm_compute. reflexivity.
  - vm_compute. lia.
Defined.

Lemma callback_checks_current_accumulators_witness :
  myCallback Toy.prims (Toy.env 9 2000) 7 Toy.cleartexts Toy.proof7 Toy.sNextOpen =
    Reverted Err.StateMismatch.
Proof.
  pose proof (callback_checks_current_accumulators Toy.prims (Toy.env 9 2000) 7
                Toy.cleartexts Toy.proof7 Toy.sRequested
                {| batchId := 1; stateHash := 43000519002354004758003620;
                   processed := false |}) as H.
  destruct H as [_ [_ H]].
  - vm_compute. reflexivity.
  - reflexivity.
  - vm_compute. reflexivity.
  - vm_compute. lia.
  - destruct (H (Toy.env 1 1005) Toy.sNextOpen [Evt.BatchOpened 2]) as [_ [_ Hrev]].
    + vm_compute. reflexivity.
    + apply Hrev. vm_compute. discriminate.
Defined.

Lemma callback_unknown_request_is_state_mismatch_witness :
  myCallback Toy.prims (Toy.env 9 2000) 8 Toy.cleartexts [Byte.x08] Toy.sRequested =
    Reverted Err.StateMismatch
  /\ transact (myCallback Toy.prims (Toy.env 9 2000) 8 Toy.cleartexts [Byte.x08])
       Toy.sRequested = (Toy.sRequested, [], Some Err.StateMismatch).
Proof.
  apply callback_unknown_request_is_state_mismatch.
  - vm_compute. reflexivity.
  - vm_compute. discriminate.
Defined.

Lemma callback_tamper_detection_and_retry_witness :
  myCallback Toy.prims (Toy.env 9 2000) 7 Toy.cleartexts Toy.proof7 Toy.sNextOpen =
    Reverted Err.StateMismatch
  /\ transact (myCallback Toy.prims (Toy.env 9 2000) 7 Toy.cleartexts [Byte.x08])
       Toy.sRequested = (Toy.sRequested, [], Some Err.InvalidProof)
  /\ transact (myCallback Toy.prims (Toy.env 9 2000) 7 Toy.cleartexts Toy.proof7)
       Toy.sRequested =
       (finalized 7 Toy.sRequested, [Evt.DecryptionCompleted 7 1 1 3 1 0], None).
Proof.
  split.
  - apply (proj1 (callback_tamper_detection_and_retry Toy.prims (Toy.env 9 2000) 7
                    Toy.cleartexts Toy.proof7 Toy.sNextOpen) [2; 4; 2; 1]).
    + vm_compute. reflexivity.
    + vm_compute. reflexivity.
    + vm_compute. discriminate.
    + vm_compute. discriminate.
  - destruct (proj2 (callback_tamper_detection_and_retry Toy.prims (Toy.env 9 2000) 7
                       Toy.cleartexts [Byte.x08] Toy.sRequested) Err.InvalidProof)
      as [Hsame [_ [_ Hretry]]].
    + vm_compute. reflexivity.
    + right. reflexivity.
    + split; [exact Hsame|].
      apply (Hretry eq_refl Toy.cleartexts Toy.proof7).
      * vm_compute. reflexivity.
      * vm_compute. lia.
Defined.

Lemma paused_blocks_operations_not_callback_witness :
  openBatch Toy.prims (Toy.env 1 1002) Toy.sPaused = Reverted Err.Paused
  /\ submitEncryptedData Toy.prims (Toy.env 1 1002) 2 4 2 1 Toy.sPaused =
       Reverted Err.Paused.
Proof.
  destruct (proj1 (paused_blocks_operations_not_callback Toy.prims)
              (Toy.env 1 1002) Toy.sPaused) as [Hopen [_ [_ Hsubmit]]].
  - vm_compute. reflexivity.
  - split; [exact Hopen|exact (Hsubmit 2 4 2 1)].
Defined.

Lemma cooldown_boundary_witness :
  exists s2 log,
    submitEncryptedData Toy.prims (Toy.env 1 1062) 2 4 2 1 Toy.sOpen = Done tt s2 log
    /\ readUint (lastSubmissionTime s2) 1 = 1062.
Proof.
  destruct (proj2 (cooldown_boundary Toy.prims) (Toy.env 1 1062) 2 4 2 1
              Toy.sOpen 1002) as [Hfit _].
  - vm_compute. reflexivity.
  - vm_compute. reflexivity.
  - reflexivity.
  - reflexivity.
  - reflexivity.
  - apply N.leb_le. vm_compute. reflexivity.
  - destruct Hfit as [_ Hok].
    + apply N.leb_le. vm_compute. reflexivity.
    + apply Hok. apply N.leb_le. vm_compute. reflexivity.
Defined.

Lemma requestBatchDecryption_preconditions_witness :
  requestBatchDecryption Toy.prims (Toy.env 1 1003) Toy.sOpen =
    Reverted Err.BatchNotClosed
  /\ requestBatchDecryption Toy.prims (Toy.env 1 1001) Toy.s0 =
       Reverted Err.InvalidBatchId.
Proof.
  split.
  - apply (proj1 (requestBatchDecryption_preconditions Toy.prims
                    (Toy.env 1 1003) Toy.sOpen)); reflexivity.
  - apply (proj1 (requestBatchDecryption_preconditions Toy.prims
                    (Toy.env 1 1001) Toy.s0)); reflexivity.
Defined.

Lemma batch_lifecycle_errors_witness :
  openBatch Toy.prims (Toy.env 1 1003) Toy.sOpen = Reverted Err.InvalidBatchId
  /\ closeBatch (Toy.env 1 1001) Toy.s0 = Reverted Err.BatchNotOpen
  /\ submitEncryptedData Toy.prims (Toy.env 1 1001) 2 4 2 1 Toy.s0 =
       Reverted Err.BatchNotOpen.
Proof.
  split; [|split].
  - apply (proj1 (batch_lifecycle_errors Toy.prims (Toy.env 1 1003) Toy.sOpen eq_refl));
      reflexivity.
  - apply (proj1 (proj2 (batch_lifecycle_errors Toy.prims (Toy.env 1 1001) Toy.s0
                           eq_refl))); reflexivity.
  - apply (proj2 (proj2 (batch_lifecycle_errors Toy.prims (Toy.env 1 1001) Toy.s0
                           eq_refl))); reflexivity.
Defined.

Lemma callback_is_caller_independent_witness :
  myCallback Toy.prims (Toy.env 9 2000) 7 Toy.cleartexts Toy.proof7 Toy.sRequested =
    myCallback Toy.prims (Toy.env 1 2000) 7 Toy.cleartexts Toy.proof7 Toy.sRequested.
Proof.
  apply (proj1 (callback_is_caller_independent Toy.prims (Toy.env 9 2000)
                  (Toy.env 1 2000) 7 Toy.cleartexts Toy.proof7 Toy.sRequested
                  eq_refl)).
Defined.

Lemma transferOwnership_changes_only_owner_witness :
  transferOwnership (Toy.env 1 1001) 2 Toy.s0 =
    Done tt (set_owner 2 Toy.s0) [Evt.OwnershipTransferred 1 2]
  /\ readBool (providers (set_owner 2 Toy.s0)) 1 = true
  /\ readBool (providers (set_owner 2 Toy.s0)) 2 = false.
Proof.
  split.
  - apply (proj1 (transferOwnership_changes_only_owner (Toy.env 1 1001) 2 Toy.s0)).
    reflexivity.
  - destruct (proj2 (proj2 (transferOwnership_changes_only_owner (Toy.env 1 1001) 2
                              Toy.s0)) (Toy.env 1 1000)) as [_ [_ [_ [Hold Hnew]]]].
    split; [exact Hold|]. apply Hnew. discriminate.
Defined.

(** ** Where the contract departs from the specification *)

(** C2 as stated fails.  Request 7 is outstanding for the closed batch 1
    and its delivery would succeed; once batch 2 is opened the same
    delivery reverts with [StateMismatch], because the recomputed hash is
    over the accumulators that [openBatch] has just reset. *)
Lemma outstanding_request_fails_after_next_batch_opens :
  decryptionContexts Toy.sRequested !! 7 =
    Some {| batchId := 1; stateHash := 43000519002354004758003620;
            processed := false |}
  /\ currentBatchId Toy.sRequested = 1
  /\ batchOpen Toy.sRequested = false
  /\ transact (myCallback Toy.prims (Toy.env 9 2000) 7 Toy.cleartexts Toy.proof7)
       Toy.sRequested =
       (finalized 7 Toy.sRequested, [Evt.DecryptionCompleted 7 1 1 3 1 0], None)
  /\ transact (openBatch Toy.prims (Toy.env 1 1005)) Toy.sRequested =
       (Toy.sNextOpen, [Evt.BatchOpened 2], None)
  /\ decryptionContexts Toy.sNextOpen !! 7 = decryptionContexts Toy.sRequested !! 7
  /\ transact (myCallback Toy.prims (Toy.env 9 2000) 7 Toy.cleartexts Toy.proof7)
       Toy.sNextOpen = (Toy.sNextOpen, [], Some Err.StateMismatch).
Proof. repeat split; vm_compute; reflexivity. Qed.

(** C3 as stated fails.  No context was ever stored under request 8, and
    the callback reverts with [StateMismatch]: the contract neither checks
    that a context exists nor declares an unknown-request error. *)
Lemma unknown_request_reverts_with_state_mismatch :
  decryptionContexts Toy.sRequested !! 8 = None
  /\ myCallback Toy.prims (Toy.env 9 2000) 8 Toy.cleartexts [Byte.x08] Toy.sRequested =
       Reverted Err.StateMismatch.
Proof. split; vm_compute; reflexivity. Qed.

(** C5 as stated fails.  While the contract is paused, a caller that is
    not the owner gets [NotOwner] from [openBatch], and a caller that is not
    a provider gets [NotProvider] from [submitEncryptedData]: the role check
    runs before the pause check. *)
Lemma paused_call_by_stranger_fails_with_role_error :
  paused Toy.sPaused = true
  /\ openBatch Toy.prims (Toy.env 2 1002) Toy.sPaused = Reverted Err.NotOwner
  /\ closeBatch (Toy.env 2 1002) Toy.sPaused = Reverted Err.NotOwner
  /\ requestBatchDecryption Toy.prims (Toy.env 2 1002) Toy.sPaused =
       Reverted Err.NotOwner
  /\ submitEncryptedData Toy.prims (Toy.env 2 1002) 2 4 2 1 Toy.sPaused =
       Reverted Err.NotProvider.
Proof. repeat split; vm_compute; reflexivity. Qed.

(** C6 as stated fails.  Address 1 submitted successfully at time 1002;
    the owner then set the cooldown to the largest [uint256].  The next
    submission of address 1, at time 2000, is earlier than
    [1002 + cooldownSeconds], yet it does not revert with [CooldownActive]:
    the checked addition overflows and the call panics. *)
Lemma cooldown_sum_overflow_panics :
  transact (submitEncryptedData Toy.prims (Toy.env 1 1002) 2 4 2 1)
    (run Toy.prims [(Toy.env 1 1001, CallOpenBatch)] Toy.s0) =
    (Toy.sOpen, [Evt.Submission 1 1], None)
  /\ readUint (lastSubmissionTime Toy.sHugeCooldown) 1 = 1002
  /\ cooldownSeconds Toy.sHugeCooldown = UINT256_MAX
  /\ readBool (providers Toy.sHugeCooldown) 1 = true
  /\ paused Toy.sHugeCooldown = false
  /\ batchOpen Toy.sHugeCooldown = true
  /\ 2000 < 1002 + cooldownSeconds Toy.sHugeCooldown
  /\ submitEncryptedData Toy.prims (Toy.env 1 2000) 2 4 2 1 Toy.sHugeCooldown =
       Reverted (Err.Panic 0x11).
Proof. repeat split; vm_compute; reflexivity. Qed.

(** ** Roles, administration and the pause switch *)

Section Administration.
Context (P : Primitives).

(** The callback can only revert with one of its own three errors or
    with the out-of-bounds panic of the cleartext slices. *)
Lemma myCallback_errors env r c p s e :
  myCallback P env r c p s = Reverted e ->
  e = Err.ReplayDetected \/ e = Err.StateMismatch \/ e = Err.InvalidProof
  \/ e = Err.Panic 0x32.
Proof.
  unfold myCallback, slice, bind, sload, sstore, emit, revert_if, ret, revert.
  cbn. split_gates; intros H; inversion H; auto.
Qed.

(** X1. Role gates.  Every function that carries [onlyOwner] reverts with
    [NotOwner] for a caller other than the owner, and
    [submitEncryptedData] reverts with [NotProvider] for a caller that is
    not a registered provider; nothing is written and nothing is logged,
    whatever the other arguments and the rest of the storage. *)
Theorem role_gates_reject_strangers (env : Env) (s : State) :
  (msg_sender env <> owner s ->
   forall c, isOwnerOnly c = true ->
     transact (dispatch P env c) s = (s, [], Some Err.NotOwner))
  /\ (readBool (providers s) (msg_sender env) = false ->
      forall a b c d,
        transact (submitEncryptedData P env a b c d) s =
          (s, [], Some Err.NotProvider)).
Proof.
  split.
  - intros Hne c Hc. apply N.eqb_neq in Hne.
    destruct c; try discriminate Hc; unfold transact; cbn [dispatch];
      run_contract; rewrite Hne; reflexivity.
  - intros Hp a b c d. unfold transact. run_contract. rewrite Hp. reflexivity.
Qed.

(** X2. The provider registry.  Called by the owner, [addProvider] and
    [removeProvider] set exactly the entry of their argument: afterwards
    the address is (is not) a provider and every other address keeps its
    status; repeating the call changes nothing more; a removed address is
    turned away by [submitEncryptedData] with [NotProvider], an added one
    is not. *)
Theorem provider_registry (env : Env) (p : address) (s : State) :
  msg_sender env = owner s ->
  let sA := (transact (addProvider env p) s).1.1 in
  let sR := (transact (removeProvider env p) s).1.1 in
  transact (addProvider env p) s =
    (set_providers (<[p := true]> (providers s)) s, [Evt.ProviderAdded p], None)
  /\ transact (removeProvider env p) s =
       (set_providers (<[p := false]> (providers s)) s, [Evt.ProviderRemoved p], None)
  /\ readBool (providers sA) p = true
  /\ readBool (providers sR) p = false
  /\ (forall q, q <> p ->
        readBool (providers sA) q = readBool (providers s) q
        /\ readBool (providers sR) q = readBool (providers s) q)
  /\ (transact (addProvider env p) sA).1.1 = sA
  /\ (transact (removeProvider env p) sR).1.1 = sR
  /\ (forall envP a b c d,
        msg_sender envP = p ->
        submitEncryptedData P envP a b c d sR = Reverted Err.NotProvider
        /\ submitEncryptedData P envP a b c d sA <> Reverted Err.NotProvider).
Proof.
  intros Howner sA sR.
  assert (HA : transact (addProvider env p) s =
     (set_providers (<[p := true]> (providers s)) s, [Evt.ProviderAdded p], None)).
  { unfold transact. run_contract. use_flags. reflexivity. }
  assert (HR : transact (removeProvider env p) s =
     (set_providers (<[p := false]> (providers s)) s, [Evt.ProviderRemoved p], None)).
  { unfold transact. run_contract. use_flags. reflexivity. }
  assert (EA : sA = set_providers (<[p := true]> (providers s)) s)
    by (unfold sA; rewrite HA; reflexivity).
  assert (ER : sR = set_providers (<[p := false]> (providers s)) s)
    by (unfold sR; rewrite HR; reflexivity).
  split; [exact HA|]. split; [exact HR|].
  rewrite EA, ER. unfold readBool. cbn.
  split; [rewrite lookup_insert_eq; reflexivity|].
  split; [rewrite lookup_insert_eq; reflexivity|].
  split.
  { intros q Hq. rewrite !lookup_insert_ne by congruence. split; reflexivity. }
  split.
  { unfold transact. run_contract. use_flags. rewrite insert_insert_eq. reflexivity. }
  split.
  { unfold transact. run_contract. use_flags. rewrite insert_insert_eq. reflexivity. }
  intros envP a b c d ->. split.
  - run_contract. unfold readBool. rewrite lookup_insert_eq. reflexivity.
  - run_contract. unfold readBool. rewrite lookup_insert_eq. cbn.
    split_gates; discriminate.
Qed.

(** X3. The cooldown is never zero.  [setCooldownSeconds], called by the
    owner, rejects 0 with [InvalidParameter] and otherwise stores the new
    value and reports the old and the new one; the constructor sets 60 and
    no other function writes the field, so the cooldown is positive after
    every sequence of calls on a deployed contract. *)
Theorem cooldown_is_never_zero :
  (forall env v s,
      msg_sender env = owner s ->
      setCooldownSeconds env 0 s = Reverted Err.InvalidParameter
      /\ (v <> 0 ->
          setCooldownSeconds env v s =
            Done tt (set_cooldownSeconds v s)
              [Evt.CooldownSecondsChanged (cooldownSeconds s) v]))
  /\ (forall envD calls, 0 < cooldownSeconds (run P calls (deployed envD))).
Proof.
  split.
  - intros env v s Howner. split.
    + run_contract. use_flags. reflexivity.
    + intros Hv. apply N.eqb_neq in Hv. run_contract. use_flags.
      reflexivity.
  - intros envD calls.
    assert (Hstep : forall s ec, 0 < cooldownSeconds s ->
                                 0 < cooldownSeconds (step P s ec)).
    { intros s [env c] H. unfold step, transact. cbn [fst snd].
      destruct c; cbn [dispatch].
      10: { destruct (myCallback_result P env requestId cleartexts proof s)
              as [[e ->]|[log ->]]; exact H. }
      all: run_contract; split_gates; cbn; try exact H.
      match goal with Hz : (_ =? 0) = false |- _ =>
        apply N.eqb_neq in Hz; lia end. }
    assert (Hrun : forall l s, 0 < cooldownSeconds s ->
                               0 < cooldownSeconds (run P l s)).
    { induction l as [|ec l IH]; intros s H; cbn; [exact H|].
      apply IH, Hstep, H. }
    apply Hrun. unfold deployed, transact, constructor. run_contract. lia.
Qed.

(** X4. The pause switch is the owner's alone and always available.  Called
    by the owner, [setPaused] stores its argument and emits [Paused] or
    [Unpaused] whatever the current value of the flag, so a paused
    contract can always be resumed.  [transferOwnership], [addProvider],
    [removeProvider] and [setCooldownSeconds] do not look at the flag: on
    storages that differ only in [paused] they have the same outcome. *)
Theorem pause_switch_and_administration :
  (forall env b s,
      msg_sender env = owner s ->
      transact (setPaused env b) s =
        (set_paused b s,
         [if b then Evt.Paused (msg_sender env) else Evt.Unpaused (msg_sender env)],
         None)
      /\ transact (setPaused env (negb b)) (set_paused b s) =
           (set_paused (negb b) s,
            [if negb b then Evt.Paused (msg_sender env)
             else Evt.Unpaused (msg_sender env)], None))
  /\ (forall env c b s,
        isAdministrative c = true ->
        dispatch P env c (set_paused b s) =
          onStorage (set_paused b) (dispatch P env c s)).
Proof.
  split.
  - intros env b s Howner. split.
    + unfold transact. run_contract. use_flags. destruct b; reflexivity.
    + unfold transact. run_contract. use_flags. destruct b; reflexivity.
  - intros env c b s Hc.
    destruct c; try discriminate Hc; cbn [dispatch]; run_contract;
      split_gates; reflexivity.
Qed.

(** X5. Handing the ownership over.  After [transferOwnership(newOwner)] by
    the owner to a different address, the previous owner is turned away
    with [NotOwner] by every owner-only function, and the new owner passes
    that gate of each of them. *)
Theorem ownership_handover (env : Env) (newOwner : address) (s : State) :
  msg_sender env = owner s ->
  newOwner <> owner s ->
  let s' := (transact (transferOwnership env newOwner) s).1.1 in
  owner s' = newOwner
  /\ (forall c, isOwnerOnly c = true ->
        dispatch P env c s' = Reverted Err.NotOwner)
  /\ (forall c, isOwnerOnly c = true ->
        dispatch P (with_sender newOwner env) c s' <> Reverted Err.NotOwner).
Proof.
  intros Howner Hne s'.
  assert (Hs' : s' = set_owner newOwner s).
  { unfold s', transact. run_contract. use_flags. reflexivity. }
  rewrite Hs'. split; [reflexivity|]. split.
  - intros c Hc.
    assert (Hneq : (msg_sender env =? newOwner) = false).
    { apply N.eqb_neq. rewrite Howner. congruence. }
    destruct c; try discriminate Hc; cbn [dispatch]; run_contract;
      rewrite Hneq; reflexivity.
  - intros c Hc.
    destruct c; try discriminate Hc; cbn [dispatch]; run_contract;
      rewrite N.eqb_refl; cbn; split_gates; discriminate.
Qed.

(** X6. Errors that are never raised.  No function reverts with the declared
    error [BatchClosed].  The constructor initialises the FHE library and
    nothing resets it, so after any sequence of calls on a deployed
    contract no function reverts with [NotInitialized]. *)
Theorem errors_never_raised :
  (forall env c s, dispatch P env c s <> Reverted Err.BatchClosed)
  /\ (forall envD calls env c,
        dispatch P env c (run P calls (deployed envD)) <>
          Reverted Err.NotInitialized).
Proof.
  split.
  - intros env c s. destruct c; cbn [dispatch].
    10: { intros H. apply myCallback_errors in H.
          destruct H as [H|[H|[H|H]]]; discriminate H. }
    all: run_contract; split_gates; discriminate.
  - intros envD calls env c.
    assert (Hstep : forall s ec, FHE_initialized s = true ->
                                 FHE_initialized (step P s ec) = true).
    { intros s [env' c'] H. unfold step, transact. cbn [fst snd].
      destruct c'; cbn [dispatch].
      10: { destruct (myCallback_result P env' requestId cleartexts proof s)
              as [[e ->]|[log ->]]; exact H. }
      all: run_contract; split_gates; cbn; exact H. }
    assert (Hrun : forall l s, FHE_initialized s = true ->
                               FHE_initialized (run P l s) = true).
    { induction l as [|ec l IH]; intros s H; cbn; [exact H|].
      apply IH, Hstep, H. }
    assert (Hinit : FHE_initialized (run P calls (deployed envD)) = true).
    { apply Hrun. unfold deployed, transact, constructor. run_contract.
      reflexivity. }
    generalize dependent (run P calls (deployed envD)). intros s Hinit.
    destruct c; cbn [dispatch].
    10: { intros H. apply myCallback_errors in H.
          destruct H as [H|[H|[H|H]]]; discriminate H. }
    all: run_contract; split_gates; try discriminate.
    match goal with Hn : negb (FHE_initialized s) = true |- _ =>
      rewrite Hinit in Hn; discriminate Hn end.
Qed.


End Administration.

(** ** Batches and submissions *)

Section Batches.
Context (P : Primitives).

(** What a call that went through looked like. *)

Lemma openBatch_done env s s' log :
  openBatch P env s = Done tt s' log ->
  batchOpen s = false
  /\ s' = set_accumulators (FHE_asEuint32 P 0) (FHE_asEuint32 P 0)
            (FHE_asEuint32 P 0) (FHE_asEuint32 P 0)
            (set_submissionsInCurrentBatch 0
               (set_batchOpen true (set_currentBatchId (currentBatchId s + 1) s)))
  /\ log = [Evt.BatchOpened (currentBatchId s + 1)].
Proof.
  run_contract. split_gates; intros H; try discriminate H.
  injection H as <- <-. auto.
Qed.

Lemma submit_done env a b c d s s' log :
  submitEncryptedData P env a b c d s = Done tt s' log ->
  batchOpen s = true
  /\ s' = set_submissionsInCurrentBatch (submissionsInCurrentBatch s + 1)
            (set_accumulators
               (FHE_add P (accSentimentScore s) a)
               (FHE_add P (accKeywordCount s) b)
               (FHE_add P (accPollOption1Count s) c)
               (FHE_add P (accPollOption2Count s) d)
               (set_lastSubmissionTime
                  (<[msg_sender env := block_timestamp env]> (lastSubmissionTime s)) s))
  /\ log = [Evt.Submission (currentBatchId s) (msg_sender env)].
Proof.
  run_contract. split_gates; intros H; try discriminate H.
  injection H as <- <-.
  match goal with Hb : negb (batchOpen s) = false |- _ =>
    apply negb_false_iff in Hb end.
  auto.
Qed.

Lemma request_done env s s' log :
  requestBatchDecryption P env s = Done tt s' log ->
  batchOpen s = false
  /\ 0 < submissionsInCurrentBatch s
  /\ s' = set_decryptionContexts
            (<[oracle_requestId env :=
                 {| batchId := currentBatchId s; stateHash := currentHash P env s;
                    processed := false |}]> (decryptionContexts s))
            (set_lastDecryptionRequestTime
               (<[msg_sender env := block_timestamp env]>
                  (lastDecryptionRequestTime s)) s)
  /\ log = [Evt.DecryptionRequested (oracle_requestId env) (currentBatchId s)].
Proof.
  run_contract. split_gates; intros H; try discriminate H.
  injection H as <- <-.
  match goal with Hz : (submissionsInCurrentBatch s =? 0) = false |- _ =>
    apply N.eqb_neq in Hz end.
  repeat split; auto. lia.
Qed.

(** A closed batch stays closed, with its accumulators, its counter and
    its number, under every call except [openBatch]. *)
Lemma closed_step s env c :
  batchOpen s = false ->
  c <> CallOpenBatch ->
  batchOpen (step P s (env, c)) = false
  /\ batchContents (step P s (env, c)) = batchContents s
  /\ currentBatchId (step P s (env, c)) = currentBatchId s.
Proof.
  intros Hclosed Hc. unfold step, transact. cbn [fst snd].
  destruct c; cbn [dispatch]; try congruence.
  9: { destruct (myCallback_result P env requestId cleartexts proof s)
         as [[e ->]|[log ->]]; auto. }
  all: run_contract; split_gates; try (repeat split; auto; fail).
  all: try discriminate.
  all: match goal with Hn : negb (batchOpen _) = false |- _ =>
      rewrite Hclosed in Hn; discriminate Hn end.
Qed.

Lemma closed_run calls : forall s,
  batchOpen s = false ->
  no_openBatch calls ->
  batchOpen (run P calls s) = false
  /\ batchContents (run P calls s) = batchContents s
  /\ currentBatchId (run P calls s) = currentBatchId s.
Proof.
  induction calls as [|[env c] calls IH]; intros s Hclosed Hno; [cbn; auto|].
  inversion Hno as [|? ? Hc Hrest]; subst. cbn in Hc.
  destruct (closed_step s env c Hclosed Hc) as [H1 [H2 H3]].
  destruct (IH _ H1 Hrest) as [H4 [H5 H6]].
  change (run P ((env, c) :: calls) s) with (run P calls (step P s (env, c))).
  split; [exact H4|]. split; congruence.
Qed.

Lemma handles_of_contents s1 s2 :
  batchContents s1 = batchContents s2 ->
  accumulatorHandles P s1 = accumulatorHandles P s2.
Proof.
  unfold batchContents, accumulatorHandles. intros H. injection H as -> -> -> -> _.
  reflexivity.
Qed.

(** The context of request [r] is written only by a request that is
    handed [r] and by the delivery of [r]. *)
Lemma context_step r s ec :
  (snd ec = CallRequestBatchDecryption -> oracle_requestId (fst ec) <> r) ->
  (forall cleartexts proof, snd ec <> CallMyCallback r cleartexts proof) ->
  decryptionContexts (step P s ec) !! r = decryptionContexts s !! r.
Proof.
  intros Hfresh Hother. destruct ec as [env c]. unfold step, transact.
  cbn [fst snd] in *.
  destruct c; cbn [dispatch].
  10: { destruct (myCallback_result P env requestId cleartexts proof s)
          as [[e ->]|[log ->]]; [reflexivity|].
        unfold finalized. cbn. apply lookup_insert_ne.
        intros ->. apply (Hother cleartexts proof). reflexivity. }
  9: { specialize (Hfresh eq_refl). run_contract. split_gates; try reflexivity.
       apply lookup_insert_ne. exact Hfresh. }
  all: run_contract; split_gates; reflexivity.
Qed.

Lemma context_run r calls : forall s,
  never_reissued r calls ->
  no_delivery_of r calls ->
  decryptionContexts (run P calls s) !! r = decryptionContexts s !! r.
Proof.
  induction calls as [|ec calls IH]; intros s Hfresh Hother; [reflexivity|].
  inversion Hfresh; inversion Hother; subst.
  change (run P (ec :: calls) s) with (run P calls (step P s ec)).
  rewrite IH by assumption. apply context_step; assumption.
Qed.

(** X7. Batch numbers count the openings.  A successful [openBatch] was made
    on a closed batch, raises [currentBatchId] by exactly one, opens the
    batch with the counter at 0 and the four accumulators at
    [FHE.asEuint32(0)], and emits [BatchOpened] with the new number.  No
    other call changes the number, so it never decreases and no number is
    used twice.  At the largest [uint256] the increment overflows and
    [openBatch] panics. *)
Theorem batch_numbers_count_openings :
  (forall env s s' log,
      openBatch P env s = Done tt s' log ->
      batchOpen s = false /\ batchOpen s' = true
      /\ currentBatchId s' = currentBatchId s + 1
      /\ batchContents s' =
           (FHE_asEuint32 P 0, FHE_asEuint32 P 0, FHE_asEuint32 P 0,
            FHE_asEuint32 P 0, 0)
      /\ log = [Evt.BatchOpened (currentBatchId s + 1)])
  /\ (forall env c s,
        c <> CallOpenBatch ->
        currentBatchId (step P s (env, c)) = currentBatchId s)
  /\ (forall calls s, currentBatchId s <= currentBatchId (run P calls s))
  /\ (forall env s,
        msg_sender env = owner s -> paused s = false -> batchOpen s = false ->
        currentBatchId s = UINT256_MAX ->
        openBatch P env s = Reverted (Err.Panic 0x11)).
Proof.
  assert (Hother : forall env c s, c <> CallOpenBatch ->
            currentBatchId (step P s (env, c)) = currentBatchId s).
  { intros env c s Hc. unfold step, transact. cbn [fst snd].
    destruct c; cbn [dispatch]; try congruence.
    9: { destruct (myCallback_result P env requestId cleartexts proof s)
           as [[e ->]|[log ->]]; reflexivity. }
    all: run_contract; split_gates; reflexivity. }
  split; [|split; [exact Hother|split]].
  - intros env s s' log H. apply openBatch_done in H.
    destruct H as [Hclosed [-> ->]]. repeat split; auto.
  - induction calls as [|[env c] calls IH]; intros s; [cbn; lia|].
    change (run P ((env, c) :: calls) s) with (run P calls (step P s (env, c))).
    etransitivity; [|apply IH].
    destruct c; try (rewrite Hother by discriminate; lia).
    unfold step, transact. cbn [fst snd dispatch].
    destruct (openBatch P env s) as [e|[] s' log] eqn:Ho; cbn; [lia|].
    apply openBatch_done in Ho. destruct Ho as [_ [-> _]]. cbn. lia.
  - intros env s Howner Hpaused Hclosed Hmax.
    run_contract. use_flags. rewrite Hmax.
    replace (UINT256_MAX + 1 <=? UINT256_MAX) with false; [reflexivity|].
    symmetry. apply N.leb_gt. lia.
Qed.

(** X8. A batch closed without submissions cannot be decrypted.  Starting from
    a closed batch, the owner opens the next batch and closes it again:
    both calls go through, the batch number is one higher, the counter is 0
    and the accumulators are the fresh [FHE.asEuint32(0)] handles.  A
    decryption request then reverts with [InvalidBatchId], whatever the
    previous batch had collected. *)
Theorem empty_batch_round_trip (envO envC envR : Env) (s : State) :
  msg_sender envO = owner s -> msg_sender envC = owner s ->
  msg_sender envR = owner s ->
  paused s = false -> batchOpen s = false ->
  currentBatchId s + 1 <= UINT256_MAX ->
  let s1 := step P s (envO, CallOpenBatch) in
  let s2 := step P s1 (envC, CallCloseBatch) in
  transact (openBatch P envO) s =
    (s1, [Evt.BatchOpened (currentBatchId s + 1)], None)
  /\ transact (closeBatch envC) s1 =
       (s2, [Evt.BatchClosed (currentBatchId s + 1)], None)
  /\ batchOpen s2 = false
  /\ currentBatchId s2 = currentBatchId s + 1
  /\ batchContents s2 =
       (FHE_asEuint32 P 0, FHE_asEuint32 P 0, FHE_asEuint32 P 0,
        FHE_asEuint32 P 0, 0)
  /\ requestBatchDecryption P envR s2 = Reverted Err.InvalidBatchId.
Proof.
  intros HO HC HR Hpaused Hclosed Hfit s1 s2. apply N.leb_le in Hfit.
  assert (Hopen : openBatch P envO s =
            Done tt (set_accumulators (FHE_asEuint32 P 0) (FHE_asEuint32 P 0)
                       (FHE_asEuint32 P 0) (FHE_asEuint32 P 0)
                       (set_submissionsInCurrentBatch 0
                          (set_batchOpen true
                             (set_currentBatchId (currentBatchId s + 1) s))))
              [Evt.BatchOpened (currentBatchId s + 1)]).
  { run_contract. use_flags. reflexivity. }
  assert (E1 : s1 = set_accumulators (FHE_asEuint32 P 0) (FHE_asEuint32 P 0)
                       (FHE_asEuint32 P 0) (FHE_asEuint32 P 0)
                       (set_submissionsInCurrentBatch 0
                          (set_batchOpen true
                             (set_currentBatchId (currentBatchId s + 1) s)))).
  { unfold s1, step, transact. cbn [fst snd dispatch]. rewrite Hopen. reflexivity. }
  assert (Hclose : closeBatch envC s1 =
            Done tt (set_batchOpen false s1) [Evt.BatchClosed (currentBatchId s + 1)]).
  { rewrite E1. run_contract. rewrite HC, N.eqb_refl. cbn. rewrite Hpaused.
    reflexivity. }
  assert (E2 : s2 = set_batchOpen false s1).
  { unfold s2, step, transact. cbn [fst snd dispatch]. rewrite Hclose. reflexivity. }
  split. { unfold transact. rewrite Hopen, E1. reflexivity. }
  split. { unfold transact. rewrite Hclose, E2. reflexivity. }
  rewrite E2, E1. cbn. repeat split.
  run_contract. rewrite HR, N.eqb_refl. cbn. rewrite Hpaused. reflexivity.
Qed.

(** X9. Submissions accumulate in order.  When every submission of a sequence
    goes through, each accumulator ends as [fheAdd] folded over the
    corresponding contributions in the order of the calls, starting from
    its value before the first one; the counter has grown by the number of
    submissions, and the batch is the same and still open. *)
Theorem submissions_accumulate_in_order (subs : list (Env * Contribution)) :
  forall s,
    all_succeed P (map submission subs) s ->
    let s' := run P (map submission subs) s in
    accSentimentScore s' = accumulated P c_sentimentScore subs (accSentimentScore s)
    /\ accKeywordCount s' = accumulated P c_keywordCount subs (accKeywordCount s)
    /\ accPollOption1Count s' =
         accumulated P c_pollOption1 subs (accPollOption1Count s)
    /\ accPollOption2Count s' =
         accumulated P c_pollOption2 subs (accPollOption2Count s)
    /\ submissionsInCurrentBatch s' =
         submissionsInCurrentBatch s + N.of_nat (length subs)
    /\ currentBatchId s' = currentBatchId s
    /\ batchOpen s' = batchOpen s.
Proof.
  induction subs as [|[env k] subs IH]; intros s Hall.
  - cbn. repeat split. lia.
  - cbn [map all_succeed] in Hall. destruct Hall as [Hfirst Hrest].
    specialize (IH _ Hrest). cbn zeta in IH.
    assert (Hstep : exists log,
              submitEncryptedData P env (c_sentimentScore k) (c_keywordCount k)
                (c_pollOption1 k) (c_pollOption2 k) s =
                Done tt (step P s (submission (env, k))) log).
    { unfold outcome, step, submission, transact in *. cbn [fst snd dispatch] in *.
      destruct (submitEncryptedData P env (c_sentimentScore k) (c_keywordCount k)
                  (c_pollOption1 k) (c_pollOption2 k) s) as [e|[] s1 log];
        [discriminate Hfirst|eauto]. }
    destruct Hstep as [log Hstep]. apply submit_done in Hstep.
    destruct Hstep as [Hopen [Hs1 _]].
    cbn zeta.
    change (run P (map submission ((env, k) :: subs)) s)
      with (run P (map submission subs) (step P s (submission (env, k)))).
    destruct IH as [I1 [I2 [I3 [I4 [I5 [I6 I7]]]]]].
    rewrite I1, I2, I3, I4, I5, I6, I7, Hs1. unfold accumulated. cbn.
    repeat split; try reflexivity; lia.
Qed.

End Batches.

(** ** Decryption requests and their delivery *)

Section Requests.
Context (P : Primitives).

(** X10. From request to delivery.  A decryption request that goes through
    was made on a closed batch with at least one submission; it stores,
    under the identifier the oracle returned and whatever was stored there
    before, an unprocessed context with the current batch number and the
    hash of the current accumulator handles, records the time of the
    request, leaves the batch untouched and emits [DecryptionRequested].
    A delivery for that identifier with a valid proof, made right after,
    is finalized and reports that batch number. *)
Theorem request_then_delivery
    (envR envC : Env) (cleartexts proof : bytes) (s s1 : State) (log : list Evt.t) :
  requestBatchDecryption P envR s = Done tt s1 log ->
  let r := oracle_requestId envR in
  batchOpen s = false
  /\ 0 < submissionsInCurrentBatch s
  /\ decryptionContexts s1 !! r =
       Some {| batchId := currentBatchId s; stateHash := currentHash P envR s;
               processed := false |}
  /\ (forall r', r' <> r -> decryptionContexts s1 !! r' = decryptionContexts s !! r')
  /\ readUint (lastDecryptionRequestTime s1) (msg_sender envR) = block_timestamp envR
  /\ batchContents s1 = batchContents s
  /\ log = [Evt.DecryptionRequested r (currentBatchId s)]
  /\ (this envC = this envR ->
      FHE_checkSignatures P r cleartexts proof = true ->
      (128 <= length cleartexts)%nat ->
      transact (myCallback P envC r cleartexts proof) s1 =
        (finalized r s1,
         [Evt.DecryptionCompleted r (currentBatchId s)
            (decoded cleartexts 0) (decoded cleartexts 1)
            (decoded cleartexts 2) (decoded cleartexts 3)], None)).
Proof.
  intros Hreq r. subst r. set (r := oracle_requestId envR).
  apply request_done in Hreq. fold r in Hreq.
  destruct Hreq as [Hclosed [Hpos [Hs1 Hlog]]].
  assert (Hctx : decryptionContexts s1 !! r =
            Some {| batchId := currentBatchId s; stateHash := currentHash P envR s;
                    processed := false |}).
  { rewrite Hs1. cbn. apply lookup_insert_eq. }
  assert (Hread : readContext (decryptionContexts s1) r =
            {| batchId := currentBatchId s; stateHash := currentHash P envR s;
               processed := false |}).
  { unfold readContext. rewrite Hctx. reflexivity. }
  split; [exact Hclosed|]. split; [exact Hpos|]. split; [exact Hctx|].
  split. { intros r' Hr'. rewrite Hs1. cbn. apply lookup_insert_ne.
           intros E. apply Hr'. symmetry. exact E. }
  split. { rewrite Hs1. cbn. unfold readUint. rewrite lookup_insert_eq. reflexivity. }
  split. { rewrite Hs1. reflexivity. }
  split; [exact Hlog|].
  intros Hthis Hsig Hlen. unfold transact.
  rewrite myCallback_success; try assumption.
  - unfold completion. rewrite Hread. reflexivity.
  - rewrite Hread. reflexivity.
  - rewrite Hread. cbn. unfold currentHash. rewrite Hthis, Hs1. reflexivity.
Qed.

(** X11. The cooldown of decryption requests.  For the owner, with the
    contract not paused and a closed batch that has submissions: when the
    time of the last request plus [cooldownSeconds] fits in a [uint256], a
    request at time [t] reverts with [CooldownActive] exactly when [t] is
    earlier than that sum, and otherwise goes through.  The two timers are
    separate: a submission does not touch the time of the caller's last
    request, and a request does not touch any last submission time. *)
Theorem request_cooldown_and_separate_timers :
  (forall env s,
      msg_sender env = owner s -> paused s = false -> batchOpen s = false ->
      0 < submissionsInCurrentBatch s ->
      let last := readUint (lastDecryptionRequestTime s) (msg_sender env) in
      last + cooldownSeconds s <= UINT256_MAX ->
      (requestBatchDecryption P env s = Reverted Err.CooldownActive
       <-> block_timestamp env < last + cooldownSeconds s)
      /\ (last + cooldownSeconds s <= block_timestamp env ->
          exists s', requestBatchDecryption P env s =
                       Done tt s' [Evt.DecryptionRequested (oracle_requestId env)
                                     (currentBatchId s)]))
  /\ (forall env a b c d s s' log,
        submitEncryptedData P env a b c d s = Done tt s' log ->
        lastDecryptionRequestTime s' = lastDecryptionRequestTime s)
  /\ (forall env s s' log,
        requestBatchDecryption P env s = Done tt s' log ->
        lastSubmissionTime s' = lastSubmissionTime s).
Proof.
  split; [|split].
  - intros env s Howner Hpaused Hclosed Hpos last Hfit. subst last.
    apply N.leb_le in Hfit.
    assert (Hnz : (submissionsInCurrentBatch s =? 0) = false)
      by (apply N.eqb_neq; lia).
    destruct (block_timestamp env <?
              readUint (lastDecryptionRequestTime s) (msg_sender env)
              + cooldownSeconds s) eqn:Hcmp.
    + assert (H : requestBatchDecryption P env s = Reverted Err.CooldownActive).
      { run_contract. use_flags. rewrite <- Howner, Hfit. cbn. rewrite Hcmp.
        reflexivity. }
      apply N.ltb_lt in Hcmp. split; [split; auto|]. lia.
    + assert (H : exists s', requestBatchDecryption P env s =
                    Done tt s' [Evt.DecryptionRequested (oracle_requestId env)
                                  (currentBatchId s)]).
      { eexists. run_contract. use_flags. rewrite <- Howner, Hfit. cbn.
        rewrite Hcmp. reflexivity. }
      apply N.ltb_ge in Hcmp. split; [split|].
      * destruct H as [s' H]. rewrite H. discriminate.
      * lia.
      * intros _. exact H.
  - intros env a b c d s s' log H. apply submit_done in H.
    destruct H as [_ [-> _]]. reflexivity.
  - intros env s s' log H. apply request_done in H.
    destruct H as [_ [_ [-> _]]]. reflexivity.
Qed.

(** X12. An address that never acted is measured from time 0.  For a provider
    without a recorded submission, with every other precondition holding,
    [submitEncryptedData] at time [t] reverts with [CooldownActive] exactly
    when [t < cooldownSeconds], and otherwise goes through and records
    [t]. *)
Theorem first_submission_is_measured_from_zero
    (env : Env) (a b c d : euint32) (s : State) :
  lastSubmissionTime s !! msg_sender env = None ->
  readBool (providers s) (msg_sender env) = true ->
  paused s = false -> batchOpen s = true -> FHE_initialized s = true ->
  submissionsInCurrentBatch s + 1 <= UINT256_MAX ->
  cooldownSeconds s <= UINT256_MAX ->
  (submitEncryptedData P env a b c d s = Reverted Err.CooldownActive
   <-> block_timestamp env < cooldownSeconds s)
  /\ (cooldownSeconds s <= block_timestamp env ->
      exists s',
        submitEncryptedData P env a b c d s =
          Done tt s' [Evt.Submission (currentBatchId s) (msg_sender env)]
        /\ lastSubmissionTime s' !! msg_sender env = Some (block_timestamp env)).
Proof.
  intros Hnone Hprov Hpaused Hopen Hinit Hcount Hfit.
  apply N.leb_le in Hcount. apply N.leb_le in Hfit.
  assert (Hlast : readUint (lastSubmissionTime s) (msg_sender env) = 0).
  { unfold readUint. rewrite Hnone. reflexivity. }
  destruct (block_timestamp env <? cooldownSeconds s) eqn:Hcmp.
  - assert (H : submitEncryptedData P env a b c d s = Reverted Err.CooldownActive).
    { run_contract. use_flags. rewrite Hlast, N.add_0_l, Hfit. cbn.
      rewrite Hcmp. reflexivity. }
    apply N.ltb_lt in Hcmp. split; [split; auto|]. lia.
  - assert (H : exists s',
        submitEncryptedData P env a b c d s =
          Done tt s' [Evt.Submission (currentBatchId s) (msg_sender env)]
        /\ lastSubmissionTime s' !! msg_sender env = Some (block_timestamp env)).
    { eexists. split.
      - run_contract. use_flags. rewrite Hlast, N.add_0_l, Hfit. cbn.
        rewrite Hcmp. cbn. use_flags. reflexivity.
      - cbn. apply lookup_insert_eq. }
    apply N.ltb_ge in Hcmp. split; [split|].
    + destruct H as [s' [H _]]. rewrite H. discriminate.
    + lia.
    + intros _. exact H.
Qed.

(** X13. What a delivery writes.  A callback that goes through changes the
    [processed] flag of the context of its request and nothing else: every
    other storage field is as before, every other context is as before,
    and the batch number and the commitment of the context itself are as
    before.  It emits exactly one event, [DecryptionCompleted], carrying
    the batch number of the context. *)
Theorem delivery_writes_only_the_processed_flag
    (env : Env) (r : uint256) (cleartexts proof : bytes) (s s' : State)
    (log : list Evt.t) :
  myCallback P env r cleartexts proof s = Done tt s' log ->
  set_decryptionContexts (decryptionContexts s) s' = s
  /\ (forall r', r' <> r -> decryptionContexts s' !! r' = decryptionContexts s !! r')
  /\ readContext (decryptionContexts s') r =
       {| batchId := batchId (readContext (decryptionContexts s) r);
          stateHash := stateHash (readContext (decryptionContexts s) r);
          processed := true |}
  /\ processed (readContext (decryptionContexts s) r) = false
  /\ log = [completion r s cleartexts].
Proof.
  intros H.
  assert (Hproc : processed (readContext (decryptionContexts s) r) = false).
  { destruct (processed (readContext (decryptionContexts s) r)) eqn:Hp;
      [|reflexivity].
    rewrite (myCallback_replay P env r cleartexts proof s Hp) in H. discriminate H. }
  assert (Hhash : currentHash P env s =
                  stateHash (readContext (decryptionContexts s) r)).
  { destruct (N.eq_dec (currentHash P env s)
                (stateHash (readContext (decryptionContexts s) r))) as [E|E];
      [exact E|].
    rewrite (myCallback_mismatch P env r cleartexts proof s Hproc E) in H.
    discriminate H. }
  assert (Hsig : FHE_checkSignatures P r cleartexts proof = true).
  { destruct (FHE_checkSignatures P r cleartexts proof) eqn:E; [reflexivity|].
    rewrite (myCallback_badproof P env r cleartexts proof s Hproc Hhash E) in H.
    discriminate H. }
  assert (Hlen : (128 <= length cleartexts)%nat).
  { destruct (le_lt_dec 128 (length cleartexts)) as [Hl|Hl]; [exact Hl|].
    exfalso. revert H.
    unfold myCallback, bind, sload, sstore, emit, revert_if, ret, revert.
    rewrite Hproc. cbn. apply N.eqb_eq in Hhash. unfold currentHash in Hhash.
    rewrite Hhash, Hsig. cbn.
    destruct (le_lt_dec 32 (length cleartexts)).
    2: { rewrite slice_out_of_range by lia. discriminate. }
    rewrite slice_in_range by lia.
    destruct (le_lt_dec 64 (length cleartexts)).
    2: { rewrite (slice_out_of_range cleartexts 32 64) by lia. discriminate. }
    rewrite slice_in_range by lia.
    destruct (le_lt_dec 96 (length cleartexts)).
    2: { rewrite (slice_out_of_range cleartexts 64 96) by lia. discriminate. }
    rewrite slice_in_range by lia.
    rewrite (slice_out_of_range cleartexts 96 128) by lia. discriminate. }
  rewrite (myCallback_success P env r cleartexts proof s Hproc Hhash Hsig Hlen) in H.
  injection H as <- <-.
  split. { unfold finalized. destruct s; reflexivity. }
  split. { intros r' Hr'. unfold finalized. cbn. apply lookup_insert_ne. congruence. }
  split. { unfold finalized, readContext. cbn. rewrite lookup_insert_eq. reflexivity. }
  split; [exact Hproc|reflexivity].
Qed.

(** X14. A closed batch is frozen until the next one is opened.  Through any
    sequence of calls without [openBatch], of any callers, a closed batch
    stays closed and keeps its four accumulator handles, its submission
    counter and its number; in particular no submission is accepted. *)
Theorem closed_batch_is_frozen (calls : list (Env * Call)) (s : State) :
  batchOpen s = false ->
  no_openBatch calls ->
  batchOpen (run P calls s) = false
  /\ batchContents (run P calls s) = batchContents s
  /\ accumulatorHandles P (run P calls s) = accumulatorHandles P s
  /\ currentBatchId (run P calls s) = currentBatchId s
  /\ (forall env a b c d,
        readBool (providers (run P calls s)) (msg_sender env) = true ->
        paused (run P calls s) = false ->
        submitEncryptedData P env a b c d (run P calls s) = Reverted Err.BatchNotOpen).
Proof.
  intros Hclosed Hno.
  destruct (closed_run P calls s Hclosed Hno) as [H1 [H2 H3]].
  split; [exact H1|]. split; [exact H2|].
  split; [apply handles_of_contents, H2|]. split; [exact H3|].
  intros env a b c d Hprov Hpaused. run_contract. use_flags. reflexivity.
Qed.

(** X15. An outstanding request stays deliverable while the batch stays closed.
    If the context of [r] is unprocessed and its commitment matches the
    current accumulators of a closed batch, then after any sequence of
    calls that neither opens a batch nor delivers [r] (and in which the
    oracle does not hand out [r] again) a delivery of [r] with a valid
    proof is still finalized. *)
Theorem outstanding_request_stays_deliverable
    (env : Env) (r : uint256) (cleartexts proof : bytes)
    (calls : list (Env * Call)) (s : State) :
  batchOpen s = false ->
  processed (readContext (decryptionContexts s) r) = false ->
  currentHash P env s = stateHash (readContext (decryptionContexts s) r) ->
  no_openBatch calls ->
  never_reissued r calls ->
  no_delivery_of r calls ->
  FHE_checkSignatures P r cleartexts proof = true ->
  (128 <= length cleartexts)%nat ->
  transact (myCallback P env r cleartexts proof) (run P calls s) =
    (finalized r (run P calls s),
     [Evt.DecryptionCompleted r (batchId (readContext (decryptionContexts s) r))
        (decoded cleartexts 0) (decoded cleartexts 1)
        (decoded cleartexts 2) (decoded cleartexts 3)], None).
Proof.
  intros Hclosed Hproc Hhash Hno Hfresh Hother Hsig Hlen.
  destruct (closed_run P calls s Hclosed Hno) as [_ [Hcontents _]].
  assert (Hread : readContext (decryptionContexts (run P calls s)) r =
                  readContext (decryptionContexts s) r).
  { unfold readContext. rewrite (context_run P r calls s Hfresh Hother).
    reflexivity. }
  unfold transact. rewrite myCallback_success; try assumption.
  - unfold completion. rewrite Hread. reflexivity.
  - rewrite Hread. exact Hproc.
  - rewrite Hread, <- Hhash. unfold currentHash.
    rewrite (handles_of_contents P _ _ Hcontents). reflexivity.
Qed.

(** X16. Requesting again.  Two requests that go through on the same closed
    batch, with any calls other than [openBatch] in between, store
    contexts with the same batch number and the same commitment: the
    second request is not refused, and when the oracle returns a new
    identifier both contexts are outstanding side by side. *)
Theorem repeated_request_commits_to_the_same_state
    (env1 env2 : Env) (calls : list (Env * Call))
    (s s1 s2 : State) (log1 log2 : list Evt.t) :
  requestBatchDecryption P env1 s = Done tt s1 log1 ->
  no_openBatch calls ->
  requestBatchDecryption P env2 (run P calls s1) = Done tt s2 log2 ->
  this env1 = this env2 ->
  let c2 := readContext (decryptionContexts s2) (oracle_requestId env2) in
  batchId c2 = currentBatchId s
  /\ stateHash c2 = currentHash P env1 s
  /\ processed c2 = false
  /\ (oracle_requestId env1 <> oracle_requestId env2 ->
      decryptionContexts s2 !! oracle_requestId env1 =
        decryptionContexts (run P calls s1) !! oracle_requestId env1).
Proof.
  intros H1 Hno H2 Hthis c2.
  apply request_done in H1. destruct H1 as [Hclosed [_ [Hs1 _]]].
  apply request_done in H2. destruct H2 as [_ [_ [Hs2 _]]].
  assert (Hclosed1 : batchOpen s1 = false) by (rewrite Hs1; exact Hclosed).
  destruct (closed_run P calls s1 Hclosed1 Hno) as [_ [Hcontents Hid]].
  assert (Hc2 : c2 = {| batchId := currentBatchId (run P calls s1);
                        stateHash := currentHash P env2 (run P calls s1);
                        processed := false |}).
  { unfold c2, readContext. rewrite Hs2. cbn. rewrite lookup_insert_eq. reflexivity. }
  rewrite Hc2. cbn. split; [|split; [|split]].
  - rewrite Hid, Hs1. reflexivity.
  - unfold currentHash. rewrite (handles_of_contents P _ _ Hcontents), Hthis, Hs1.
    reflexivity.
  - reflexivity.
  - intros Hne. rewrite Hs2. cbn. apply lookup_insert_ne. congruence.
Qed.

End Requests.

(** ** The decoded cleartexts *)

Lemma abi_decode_step (w : list byte) : forall acc,
  fold_left (fun a x => a * 256 + Byte.to_N x) w acc <
    (acc + 1) * 256 ^ N.of_nat (length w).
Proof.
  induction w as [|x w IH]; intros acc.
  - cbn. lia.
  - cbn [fold_left length]. specialize (IH (acc * 256 + Byte.to_N x)).
    pose proof (Byte.to_N_bounded x) as Hx.
    rewrite Nat2N.inj_succ, N.pow_succ_r'.
    eapply N.lt_le_trans; [exact IH|].
    set (k := 256 ^ N.of_nat (length w)).
    replace ((acc + 1) * (256 * k)) with ((acc * 256 + 256) * k) by lia.
    apply N.mul_le_mono_r. lia.
Qed.

(** X17. The values a delivery publishes.  Each of the four decoded values is
    a [uint256].  Only the first 128 bytes of the cleartexts are decoded:
    bytes that follow them do not change any of the four values.  For
    cleartexts made of four 32-byte words the values are the big-endian
    readings of the words, in order. *)
Theorem decoded_cleartexts :
  (forall cleartexts i, decoded cleartexts i <= UINT256_MAX)
  /\ (forall cleartexts extra i,
        (32 * (i + 1) <= length cleartexts)%nat ->
        decoded (cleartexts ++ extra) i = decoded cleartexts i)
  /\ (forall w0 w1 w2 w3,
        length w0 = 32%nat -> length w1 = 32%nat ->
        length w2 = 32%nat -> length w3 = 32%nat ->
        let cleartexts := w0 ++ w1 ++ w2 ++ w3 in
        decoded cleartexts 0 = abi_decode_uint256 w0
        /\ decoded cleartexts 1 = abi_decode_uint256 w1
        /\ decoded cleartexts 2 = abi_decode_uint256 w2
        /\ decoded cleartexts 3 = abi_decode_uint256 w3).
Proof.
  split; [|split].
  - intros ct i. unfold decoded, abi_decode_uint256.
    pose proof (abi_decode_step (take 32 (drop (32 * i) ct)) 0) as H.
    assert (Hlen : (length (take 32 (drop (32 * i) ct)) <= 32)%nat).
    { rewrite length_take. lia. }
    assert (Hpow : 256 ^ N.of_nat (length (take 32 (drop (32 * i) ct)))
                   <= 256 ^ 32).
    { apply N.pow_le_mono_r; lia. }
    assert (Hmax : 256 ^ 32 = UINT256_MAX + 1) by (vm_compute; reflexivity).
    lia.
  - intros ct extra i Hlen. unfold decoded.
    rewrite drop_app_le by lia.
    rewrite take_app_le; [reflexivity|]. rewrite length_drop. lia.
  - intros w0 w1 w2 w3 H0 H1 H2 H3 ct. unfold ct, decoded.
    assert (T : forall (a b : list byte), length a = 32%nat -> take 32 (a ++ b) = a).
    { intros a b Ha. rewrite take_app_le by lia. apply take_ge. lia. }
    assert (D : forall (a b : list byte) n, length a = n -> drop n (a ++ b) = b).
    { intros a b n <-. rewrite drop_app_length. reflexivity. }
    repeat split.
    + change (32 * 0)%nat with 0%nat. rewrite drop_0, T by assumption.
      reflexivity.
    + rewrite (D w0 _ (32 * 1)%nat) by (rewrite H0; reflexivity).
      rewrite T by assumption. reflexivity.
    + rewrite (app_assoc w0 w1).
      rewrite (D (w0 ++ w1) _ (32 * 2)%nat)
        by (rewrite length_app, H0, H1; reflexivity).
      rewrite T by assumption. reflexivity.
    + rewrite (app_assoc w1 w2), (app_assoc w0).
      rewrite (D (w0 ++ w1 ++ w2) _ (32 * 3)%nat)
        by (rewrite !length_app, H0, H1, H2; reflexivity).
      apply f_equal, take_ge. lia.
Qed.

(** ** The further statements at concrete inputs *)

Lemma role_gates_reject_strangers_witness :
  transact (dispatch Toy.prims (Toy.env 2 1001) (CallSetPaused true)) Toy.s0 =
    (Toy.s0, [], Some Err.NotOwner)
  /\ transact (submitEncryptedData Toy.prims (Toy.env 2 1002) 2 4 2 1) Scenario.sFresh =
       (Scenario.sFresh, [], Some Err.NotProvider).
Proof.
  split.
  - apply (proj1 (role_gates_reject_strangers Toy.prims (Toy.env 2 1001) Toy.s0)).
    + vm_compute. discriminate.
    + reflexivity.
  - apply (proj2 (role_gates_reject_strangers Toy.prims (Toy.env 2 1002)
                    Scenario.sFresh)).
    vm_compute. reflexivity.
Defined.

Lemma provider_registry_witness :
  readBool (providers (transact (addProvider (Toy.env 1 1001) 5) Toy.s0).1.1) 5 = true
  /\ readBool (providers (transact (removeProvider (Toy.env 1 1001) 1) Toy.s0).1.1) 1
     = false.
Proof.
  split.
  - apply (provider_registry Toy.prims (Toy.env 1 1001) 5 Toy.s0). reflexivity.
  - apply (provider_registry Toy.prims (Toy.env 1 1001) 1 Toy.s0). reflexivity.
Defined.

Lemma cooldown_is_never_zero_witness :
  setCooldownSeconds (Toy.env 1 1001) 0 Toy.s0 = Reverted Err.InvalidParameter
  /\ setCooldownSeconds (Toy.env 1 1001) 30 Toy.s0 =
       Done tt (set_cooldownSeconds 30 Toy.s0) [Evt.CooldownSecondsChanged 60 30].
Proof.
  destruct (proj1 (cooldown_is_never_zero Toy.prims) (Toy.env 1 1001) 30 Toy.s0)
    as [Hzero Hset].
  - reflexivity.
  - split; [exact Hzero|]. apply Hset. discriminate.
Defined.

Lemma pause_switch_and_administration_witness :
  transact (setPaused (Toy.env 1 1002) false) Toy.sPaused =
    (set_paused false Toy.sPaused, [Evt.Unpaused 1], None).
Proof.
  apply (proj1 (pause_switch_and_administration Toy.prims)
           (Toy.env 1 1002) false Toy.sPaused).
  reflexivity.
Defined.

Lemma ownership_handover_witness :
  dispatch Toy.prims (Toy.env 1 1002) CallOpenBatch
    (transact (transferOwnership (Toy.env 1 1002) 2) Toy.s0).1.1 =
    Reverted Err.NotOwner.
Proof.
  apply (proj1 (proj2 (ownership_handover Toy.prims (Toy.env 1 1002) 2 Toy.s0
                         eq_refl ltac:(vm_compute; discriminate)))).
  reflexivity.
Defined.

Lemma batch_numbers_count_openings_witness :
  currentBatchId Toy.sNextOpen = currentBatchId Toy.sRequested + 1
  /\ openBatch Toy.prims (Toy.env 1 1001) (set_currentBatchId UINT256_MAX Toy.s0) =
       Reverted (Err.Panic 0x11).
Proof.
  destruct (batch_numbers_count_openings Toy.prims) as [Hopen [_ [_ Hmax]]].
  split.
  - apply (Hopen (Toy.env 1 1005) Toy.sRequested Toy.sNextOpen [Evt.BatchOpened 2]).
    vm_compute. reflexivity.
  - apply Hmax; reflexivity.
Defined.

Lemma empty_batch_round_trip_witness :
  requestBatchDecryption Toy.prims (Toy.envR 1 3000 9)
    (step Toy.prims (step Toy.prims Toy.sRequested (Toy.env 1 2000, CallOpenBatch))
       (Toy.env 1 2001, CallCloseBatch)) = Reverted Err.InvalidBatchId.
Proof.
  apply (empty_batch_round_trip Toy.prims (Toy.env 1 2000) (Toy.env 1 2001)
           (Toy.envR 1 3000 9) Toy.sRequested); try reflexivity.
  apply N.leb_le. vm_compute. reflexivity.
Defined.

Lemma submissions_accumulate_in_order_witness :
  accSentimentScore
    (run Toy.prims (map submission Scenario.twoSubmissions) Scenario.sTwoProviders) =
    Toy.add (Toy.add (Toy.asEuint32 0) 2) 3
  /\ submissionsInCurrentBatch
       (run Toy.prims (map submission Scenario.twoSubmissions) Scenario.sTwoProviders)
     = 2.
Proof.
  destruct (submissions_accumulate_in_order Toy.prims Scenario.twoSubmissions
              Scenario.sTwoProviders) as [Hs [_ [_ [_ [Hn _]]]]].
  - vm_compute. repeat split; reflexivity.
  - split; [exact Hs|exact Hn].
Defined.

Lemma request_then_delivery_witness :
  transact (myCallback Toy.prims (Toy.env 9 2000) 7 Toy.cleartexts Toy.proof7)
    Toy.sRequested =
    (finalized 7 Toy.sRequested, [Evt.DecryptionCompleted 7 1 1 3 1 0], None).
Proof.
  destruct (request_then_delivery Toy.prims (Toy.envR 1 1004 7) (Toy.env 9 2000)
              Toy.cleartexts Toy.proof7 Scenario.sClosed Toy.sRequested
              [Evt.DecryptionRequested 7 1]) as [_ [_ [_ [_ [_ [_ [_ H]]]]]]].
  - vm_compute. reflexivity.
  - apply H.
    + reflexivity.
    + vm_compute. reflexivity.
    + vm_compute. lia.
Defined.

Lemma request_cooldown_and_separate_timers_witness :
  requestBatchDecryption Toy.prims (Toy.envR 1 1050 8) Toy.sRequested =
    Reverted Err.CooldownActive.
Proof.
  destruct (proj1 (request_cooldown_and_separate_timers Toy.prims)
              (Toy.envR 1 1050 8) Toy.sRequested eq_refl eq_refl eq_refl eq_refl)
    as [Hiff _].
  - apply N.leb_le. vm_compute. reflexivity.
  - apply Hiff. vm_compute. reflexivity.
Defined.

Lemma first_submission_is_measured_from_zero_witness :
  submitEncryptedData Toy.prims (Toy.env 1 59) 2 4 2 1 Scenario.sFresh =
    Reverted Err.CooldownActive.
Proof.
  destruct (first_submission_is_measured_from_zero Toy.prims (Toy.env 1 59) 2 4 2 1
              Scenario.sFresh eq_refl eq_refl eq_refl eq_refl eq_refl) as [Hiff _].
  - apply N.leb_le. vm_compute. reflexivity.
  - apply N.leb_le. vm_compute. reflexivity.
  - apply Hiff. vm_compute. reflexivity.
Defined.

Lemma delivery_writes_only_the_processed_flag_witness :
  set_decryptionContexts (decryptionContexts Toy.sRequested)
    (finalized 7 Toy.sRequested) = Toy.sRequested.
Proof.
  apply (delivery_writes_only_the_processed_flag Toy.prims (Toy.env 9 2000) 7
           Toy.cleartexts Toy.proof7 Toy.sRequested (finalized 7 Toy.sRequested)
           [Evt.DecryptionCompleted 7 1 1 3 1 0]).
  vm_compute. reflexivity.
Defined.

Lemma closed_batch_is_frozen_witness :
  batchContents (run Toy.prims Scenario.meanwhile Toy.sRequested) =
    batchContents Toy.sRequested.
Proof.
  apply (closed_batch_is_frozen Toy.prims Scenario.meanwhile Toy.sRequested).
  - reflexivity.
  - repeat constructor; discriminate.
Defined.

Lemma outstanding_request_stays_deliverable_witness :
  transact (myCallback Toy.prims (Toy.env 9 2000) 7 Toy.cleartexts Toy.proof7)
    (run Toy.prims Scenario.meanwhile Toy.sRequested) =
    (finalized 7 (run Toy.prims Scenario.meanwhile Toy.sRequested),
     [Evt.DecryptionCompleted 7 1 1 3 1 0], None).
Proof.
  apply (outstanding_request_stays_deliverable Toy.prims (Toy.env 9 2000) 7
           Toy.cleartexts Toy.proof7 Scenario.meanwhile Toy.sRequested).
  - reflexivity.
  - vm_compute. reflexivity.
  - vm_compute. reflexivity.
  - repeat constructor; discriminate.
  - repeat constructor; cbn; intros; discriminate.
  - repeat constructor; cbn; intros; discriminate.
  - vm_compute. reflexivity.
  - vm_compute. lia.
Defined.

Lemma repeated_request_commits_to_the_same_state_witness :
  stateHash (readContext
               (decryptionContexts
                  (step Toy.prims Toy.sRequested
                     (Toy.envR 1 1100 8, CallRequestBatchDecryption))) 8) =
    currentHash Toy.prims (Toy.envR 1 1004 7) Scenario.sClosed.
Proof.
  apply (repeated_request_commits_to_the_same_state Toy.prims
           (Toy.envR 1 1004 7) (Toy.envR 1 1100 8) [] Scenario.sClosed
           Toy.sRequested
           (step Toy.prims Toy.sRequested (Toy.envR 1 1100 8, CallRequestBatchDecryption))
           [Evt.DecryptionRequested 7 1] [Evt.DecryptionRequested 8 1]).
  - vm_compute. reflexivity.
  - constructor.
  - vm_compute. reflexivity.
  - reflexivity.
Defined.

Lemma decoded_cleartexts_witness :
  decoded (Toy.cleartexts ++ [Byte.xff; Byte.xff]) 1 = 3
  /\ decoded (Toy.word 1 ++ Toy.word 3 ++ Toy.word 1 ++ Toy.word 0) 3 = 0.
Proof.
  destruct decoded_cleartexts as [_ [Hextra Hwords]]. split.
  - rewrite (Hextra Toy.cleartexts [Byte.xff; Byte.xff] 1%nat).
    + vm_compute. reflexivity.
    + vm_compute. lia.
  - destruct (Hwords (Toy.word 1) (Toy.word 3) (Toy.word 1) (Toy.word 0)
                eq_refl eq_refl eq_refl eq_refl) as [_ [_ [_ H3]]].
    rewrite H3. vm_compute. reflexivity.
Defined.
